(** * Financial Decision-Support System: metrics, preference framing,
      narrative formatting and tiered generation

    A shallow embedding of [financial_data.py], [preference_engine.py] and
    [query_data_dss.py].

    Conventions of the embedding.
    - A Python [float] is a [pyfloat]: a rational, or [NaN].  Arithmetic is
      exact, where the code rounds every operation to a double; closing
      prices are taken to be positive, so that no division by zero (and hence
      no infinity) arises.  [np.sqrt] is a parameter.  A statement that
      relates a computed number to a threshold or to a formula therefore
      keeps a margin that is wide against the rounding of doubles, and a
      statement about a text fixes no digits of a number beyond the fixed
      formats.
    - A Python [str] is a [string] that holds its UTF-8 encoding.  [py_len],
      [drop] and [strip] go by characters, each a leading byte with the bytes
      that continue it; [take], which cuts the passages of the legacy query,
      goes by bytes, the characters of an ASCII text.
    - A dictionary supplied by the caller ([preferences]) is a
      [gmap string string]; dictionaries with a fixed set of keys built by the
      code itself are records.
    - The market-data service, the rule index and the generation backends are
      fields of a [World]; a call that raises is [None]. *)

From Stdlib Require Import QArith Qround Qabs Lqa ZArith Lia List Ascii String.
From Stdlib Require Import DecimalString.
From stdpp Require Import base option gmap strings.

Import ListNotations.
Local Open Scope string_scope.
Local Open Scope list_scope.

(** ** Python strings *)

Module PyStr.

Definition chr (n : nat) : string := String (ascii_of_nat n) EmptyString.

Definition nl : string := chr 10.
Definition dq : string := chr 34.

(** The bullet U+2022 and the em dash U+2014, as UTF-8. *)
Definition bullet : string := chr 226 +:+ chr 128 +:+ chr 162.
Definition emdash : string := chr 226 +:+ chr 128 +:+ chr 148.

(** [needle in s] *)
Fixpoint contains (needle s : string) : bool :=
  String.prefix needle s ||
  match s with
  | EmptyString => false
  | String _ s' => contains needle s'
  end.

(** [s.split('\n')] *)
Fixpoint split_nl (s : string) : list string :=
  match s with
  | EmptyString => [EmptyString]
  | String c s' =>
      if Ascii.eqb c (ascii_of_nat 10) then EmptyString :: split_nl s'
      else match split_nl s' with
           | l :: ls => String c l :: ls
           | [] => [String c EmptyString]
           end
  end.

(** [sep.join(parts)] *)
Fixpoint join (sep : string) (parts : list string) : string :=
  match parts with
  | [] => EmptyString
  | [p] => p
  | p :: ps => p +:+ sep +:+ join sep ps
  end.

Definition lower_ascii (c : ascii) : ascii :=
  let n := nat_of_ascii c in
  if ((65 <=? n)%nat && (n <=? 90)%nat) then ascii_of_nat (n + 32) else c.

(** [s.lower()] *)
Fixpoint lower (s : string) : string :=
  match s with
  | EmptyString => EmptyString
  | String c s' => String (lower_ascii c) (lower s')
  end.

Definition upper_ascii (c : ascii) : ascii :=
  let n := nat_of_ascii c in
  if ((97 <=? n)%nat && (n <=? 122)%nat) then ascii_of_nat (n - 32) else c.

(** [s.upper()] *)
Fixpoint upper (s : string) : string :=
  match s with
  | EmptyString => EmptyString
  | String c s' => String (upper_ascii c) (upper s')
  end.

(** A byte from 128 to 191 continues the character before it. *)
Definition is_continuation (c : ascii) : bool :=
  let n := nat_of_ascii c in (128 <=? n)%nat && (n <=? 191)%nat.

Definition continues (s : string) : bool :=
  match s with
  | String c _ => is_continuation c
  | EmptyString => false
  end.

(** The characters of a text, each with the bytes that encode it. *)
Fixpoint chars (s : string) : list string :=
  match s with
  | EmptyString => []
  | String c s' =>
      match chars s' with
      | ch :: rest =>
          if continues s' then String c ch :: rest
          else String c EmptyString :: ch :: rest
      | [] => [String c EmptyString]
      end
  end.

(** [len(s)] *)
Definition py_len (s : string) : nat := length (chars s).

(** [s[n:]] *)
Definition drop (n : nat) (s : string) : string :=
  join EmptyString (skipn n (chars s)).

Definition utf8 (bytes : list nat) : string :=
  fold_right (fun n s => String (ascii_of_nat n) s) EmptyString bytes.

(** The characters [str.isspace] holds of: U+0009 to U+000D, U+001C to
    U+0020, U+0085, U+00A0, U+1680, U+2000 to U+200A, U+2028, U+2029, U+202F,
    U+205F and U+3000. *)
Definition whitespace : list string :=
  map chr [9; 10; 11; 12; 13; 28; 29; 30; 31; 32]%nat
  ++ map utf8
       [ [194; 133]; [194; 160]; [225; 154; 128];
         [226; 128; 128]; [226; 128; 129]; [226; 128; 130]; [226; 128; 131];
         [226; 128; 132]; [226; 128; 133]; [226; 128; 134]; [226; 128; 135];
         [226; 128; 136]; [226; 128; 137]; [226; 128; 138];
         [226; 128; 168]; [226; 128; 169]; [226; 128; 175];
         [226; 129; 159]; [227; 128; 128] ]%nat.

Definition is_space (ch : string) : bool := existsb (String.eqb ch) whitespace.

Fixpoint lstrip_chars (l : list string) : list string :=
  match l with
  | ch :: t => if is_space ch then lstrip_chars t else l
  | [] => []
  end.

Definition rstrip_chars (l : list string) : list string :=
  rev (lstrip_chars (rev l)).

(** [s.strip()] *)
Definition strip (s : string) : string :=
  join EmptyString (rstrip_chars (lstrip_chars (chars s))).

(** Truthiness of a string: [if s:]. *)
Definition truthy (s : string) : bool :=
  match s with EmptyString => false | _ => true end.

End PyStr.

(** ** Python numbers *)

Module PyNum.

(** A [float]: a finite value or NaN. *)
Inductive pyfloat : Type :=
  | Fin (q : Q)
  | NaN.

Definition Qlt_bool (a b : Q) : bool := negb (Qle_bool b a).

(** Comparisons: any comparison with NaN is [False]. *)
Definition flt (x y : pyfloat) : bool :=
  match x, y with
  | Fin a, Fin b => Qlt_bool a b
  | _, _ => false
  end.

Definition fgt (x y : pyfloat) : bool := flt y x.

Definition fge (x y : pyfloat) : bool :=
  match x, y with
  | Fin a, Fin b => Qle_bool b a
  | _, _ => false
  end.

(** [if x:] for a float: zero is falsy, NaN is truthy. *)
Definition ftruthy (x : pyfloat) : bool :=
  match x with
  | Fin a => negb (Qeq_bool a 0)
  | NaN => true
  end.

Definition fmap1 (f : Q -> Q) (x : pyfloat) : pyfloat :=
  match x with Fin a => Fin (f a) | NaN => NaN end.

Definition fmap2 (f : Q -> Q -> Q) (x y : pyfloat) : pyfloat :=
  match x, y with Fin a, Fin b => Fin (f a b) | _, _ => NaN end.

Definition fmul : pyfloat -> pyfloat -> pyfloat := fmap2 Qmult.
Definition fabs : pyfloat -> pyfloat := fmap1 Qabs.

(** Equality of floats as values. *)
Definition feq (x y : pyfloat) : Prop :=
  match x, y with
  | Fin a, Fin b => (a == b)%Q
  | NaN, NaN => True
  | _, _ => False
  end.

(** Rounding to the nearest integer, ties to even. *)
Definition round_half_even (q : Q) : Z :=
  let f := Qfloor q in
  let r := (q - inject_Z f)%Q in
  if Qlt_bool r (1 # 2) then f
  else if Qlt_bool (1 # 2) r then (f + 1)%Z
  else if Z.even f then f else (f + 1)%Z.

Definition pow10 (nd : nat) : positive := Pos.pow 10 (Pos.of_nat nd).

Definition scale10 (nd : nat) : positive :=
  match nd with O => 1%positive | _ => pow10 nd end.

(** [round(q, nd)] *)
Definition round_q (q : Q) (nd : nat) : Q :=
  round_half_even (q * inject_Z (Zpos (scale10 nd))) # scale10 nd.

Definition py_round (x : pyfloat) (nd : nat) : pyfloat :=
  fmap1 (fun q => round_q q nd) x.

(** [str(n)] for a non-negative integer. *)
Definition str_N (n : N) : string := NilZero.string_of_uint (N.to_uint n).

Definition str_nat (n : nat) : string := str_N (N.of_nat n).

Fixpoint zeros (n : nat) : string :=
  match n with O => EmptyString | S n' => String "0" (zeros n') end.

Definition pad_left (width : nat) (s : string) : string :=
  zeros (width - String.length s) +:+ s.

(** Fixed-point rendering with [nd] decimals of a rational. *)
Definition fixed_q (nd : nat) (plus : bool) (q : Q) : string :=
  let n := Z.abs_N (round_half_even (q * inject_Z (Zpos (scale10 nd)))) in
  let sign := if Qlt_bool q 0 then "-" else if plus then "+" else EmptyString in
  let ip := N.div n (Npos (scale10 nd)) in
  let fp := N.modulo n (Npos (scale10 nd)) in
  sign +:+ str_N ip +:+
  match nd with
  | O => EmptyString
  | _ => "." +:+ pad_left nd (str_N fp)
  end.

(** [f"{x:.<nd>f}"] and, with [plus], [f"{x:+.<nd>f}"]. *)
Definition fmt_fixed (nd : nat) (plus : bool) (x : pyfloat) : string :=
  match x with
  | Fin q => fixed_q nd plus q
  | NaN => (if plus then "+" else EmptyString) +:+ "nan"
  end.

(** The least number of decimals, from [k] up to [k + fuel], with which
    [q] is written exactly. *)
Fixpoint decimals (fuel k : nat) (q : Q) : nat :=
  match fuel with
  | O => k
  | S fuel' =>
      if Qeq_bool (round_q q k) q then k else decimals fuel' (S k) q
  end.

(** [str(x)] of a float: the shortest decimal that reads back as [x], with
    at least one decimal; a value that is no decimal of at most sixteen places
    is written with sixteen.  The exponent notation Python uses below 0.0001
    and from 1e16 on is not modelled. *)
Definition str_float (x : pyfloat) : string :=
  match x with
  | Fin q => fixed_q (decimals 15 1 q) false q
  | NaN => "nan"
  end.

End PyNum.

Import PyStr PyNum.

(** ** The external collaborators *)

(** One row of a price history: the index label (a date) and the [Close] and
    [Volume] columns. *)
Record Bar : Type := mkBar { bar_date : Z; bar_close : Q; bar_volume : Q }.

(** The part of [Ticker.info] the code reads; an absent key is [None]. *)
Record Info : Type := mkInfo {
  info_sector : option string;
  info_industry : option string;
  info_dividendYield : option Q;
  info_marketCap : option Z
}.

(** A retrieved passage: [page_content] and [metadata.get("source")]. *)
Record Doc : Type := mkDoc { page_content : string; doc_source : option string }.

Record World : Type := mkWorld {
  (** [yf.Ticker(t).history(period=p)]; [None] when the call raises. *)
  yf_history : string -> string -> option (list Bar);
  (** [yf.Ticker(t).info]; [None] when the access raises. *)
  yf_info : string -> option Info;
  (** [datetime.now().strftime("%Y-%m-%d")] *)
  today : string;
  (** [os.path.exists(CHROMA_PATH)] *)
  chroma_exists : bool;
  (** Embedding set-up, opening the index and [similarity_search(q, k=5)];
      [None] when any of them raises. *)
  similarity_search : string -> option (list Doc);
  (** The names of the models of a reachable Ollama service that answered
      with status 200; [None] otherwise. *)
  ollama_tags : option (list string);
  (** [Ollama(model=m, ...).invoke(prompt)]; [None] when it raises. *)
  ollama_invoke : string -> string -> option string;
  (** The [generated_text] of the local pipeline; [None] when loading the
      model or generating raises. *)
  hf_generate : string -> option string
}.

(** ** financial_data.py *)

Module FinancialData.

Record RiskMetrics : Type := mkRisk {
  volatility_annual : pyfloat;
  max_drawdown : pyfloat;
  beta : option pyfloat;
  avg_recovery_days : option nat;
  risk_classification : string;
  sharp_moves_count : nat
}.

Record Performance : Type := mkPerf {
  return_1m : option pyfloat;
  return_3m : option pyfloat;
  return_6m : option pyfloat;
  return_1y : option pyfloat;
  vs_sp500_1y : option pyfloat
}.

Record Trends : Type := mkTrends {
  price_trend_3m : string;
  volume_trend : string;
  position_vs_50day_avg : string
}.

Record BasicInfo : Type := mkBasic {
  sector : string;
  industry : string;
  current_price : pyfloat;
  dividend_yield : pyfloat;
  market_cap : option Z
}.

Record Summary : Type := mkSummary {
  ticker : string;
  period : string;
  fetch_date : string;
  basic_info : BasicInfo;
  risk_metrics : RiskMetrics;
  performance : Performance;
  trends : Trends
}.

(** A pandas [Series] of floats: index labels and values, in order. *)
Definition Series : Type := list (Z * Q).

Definition closes (hist : list Bar) : Series :=
  map (fun b => (bar_date b, bar_close b)) hist.

Definition volumes (hist : list Bar) : Series :=
  map (fun b => (bar_date b, bar_volume b)) hist.

Definition values (s : Series) : list Q := map snd s.
Definition index (s : Series) : list Z := map fst s.

(** [s.pct_change().dropna()]: the first row, which has no predecessor, is
    the one dropped.  [Qred] puts a rational in lowest terms and leaves its
    value as it is. *)
Fixpoint pct_change (s : Series) : Series :=
  match s with
  | (_, p0) :: (((d1, p1) :: _) as tl) => (d1, Qred (p1 / p0 - 1)) :: pct_change tl
  | _ => []
  end.

(** Sums and products keep their results in lowest terms. *)
Definition Qsum (l : list Q) : Q := fold_right (fun x acc => Qred (x + acc)) 0%Q l.

Definition Qlen (l : list Q) : Q := inject_Z (Z.of_nat (length l)).

Definition Qmean (l : list Q) : Q := (Qsum l / Qlen l)%Q.

(** [s.mean()] *)
Definition mean (l : list Q) : pyfloat :=
  match l with [] => NaN | _ => Fin (Qmean l) end.

(** Sum of the products of the deviations from the means. *)
Definition codev (a b : list Q) : Q :=
  let ma := Qmean a in
  let mb := Qmean b in
  Qsum (map (fun p => ((fst p - ma) * (snd p - mb))%Q) (combine a b)).

(** [np.cov(a, b)[0][1]]: the estimate with [n - 1] in the denominator,
    NaN for fewer than two observations. *)
Definition np_cov (a b : list Q) : pyfloat :=
  match a with
  | [] | [_] => NaN
  | _ => Fin (codev a b / (Qlen a - 1))%Q
  end.

(** [np.var(a)]: the estimate with [n] in the denominator, NaN for none. *)
Definition np_var (a : list Q) : pyfloat :=
  match a with
  | [] => NaN
  | _ => Fin (codev a a / Qlen a)%Q
  end.

(** The variance under [s.std()]: [n - 1] in the denominator, NaN for fewer
    than two observations. *)
Definition sample_var (a : list Q) : pyfloat :=
  match a with
  | [] | [_] => NaN
  | _ => Fin (codev a a / (Qlen a - 1))%Q
  end.

(** [(1 + r).cumprod()] *)
Fixpoint cumprod_from (acc : Q) (l : list Q) : list Q :=
  match l with
  | [] => []
  | x :: t => let a := Qred (acc * x) in a :: cumprod_from a t
  end.

Definition cumprod (l : list Q) : list Q := cumprod_from 1%Q l.

Definition Qmax (a b : Q) : Q := if Qle_bool a b then b else a.
Definition Qmin (a b : Q) : Q := if Qle_bool a b then a else b.

(** [c.expanding().max()] *)
Fixpoint expanding_max_from (m : Q) (l : list Q) : list Q :=
  match l with
  | [] => []
  | x :: t => let m' := Qmax m x in m' :: expanding_max_from m' t
  end.

Definition expanding_max (l : list Q) : list Q :=
  match l with
  | [] => []
  | x :: t => x :: expanding_max_from x t
  end.

(** [s.min()] *)
Definition series_min (l : list Q) : pyfloat :=
  match l with
  | [] => NaN
  | x :: t => Fin (fold_left Qmin t x)
  end.

(** [s.reindex(idx).dropna()]: the rows of [s] at the labels of [idx], in
    the order of [idx]; a label [s] lacks gives a NaN row, which is dropped. *)
Fixpoint lookup_label (d : Z) (s : Series) : option Q :=
  match s with
  | [] => None
  | (d', v) :: t => if Z.eqb d d' then Some v else lookup_label d t
  end.

Fixpoint reindex_dropna (s : Series) (idx : list Z) : Series :=
  match idx with
  | [] => []
  | d :: t =>
      match lookup_label d s with
      | Some v => (d, v) :: reindex_dropna s t
      | None => reindex_dropna s t
      end
  end.

(** The two date-aligned series of the beta. *)
Definition aligned_returns (returns market_returns : Series) : Series :=
  reindex_dropna returns (index market_returns).

Definition aligned_market (returns market_returns : Series) : Series :=
  reindex_dropna market_returns (index (aligned_returns returns market_returns)).

(** The loop over [enumerate(drawdown)] that collects the lengths of the
    drawdown episodes.  The two thresholds are compared exactly; a drawdown
    that the code's doubles put within rounding of -5% or -1% can fall on
    the other side there. *)
Fixpoint recovery_loop (i : nat) (in_drawdown : bool) (drawdown_start : option nat)
    (recovery_periods : list nat) (drawdown : list Q) : list nat :=
  match drawdown with
  | [] => recovery_periods
  | val :: t =>
      if Qlt_bool val (-(5 # 100)) && negb in_drawdown then
        recovery_loop (S i) true (Some i) recovery_periods t
      else if Qle_bool (-(1 # 100)) val && in_drawdown then
        recovery_loop (S i) false drawdown_start
          (match drawdown_start with
           | Some s => recovery_periods ++ [i - s]%nat
           | None => recovery_periods
           end) t
      else recovery_loop (S i) in_drawdown drawdown_start recovery_periods t
  end.

(** [int(np.mean(periods)) if periods else None] *)
Definition avg_recovery (recovery_periods : list nat) : option nat :=
  match recovery_periods with
  | [] => None
  | _ => Some (fold_right Nat.add 0%nat recovery_periods / length recovery_periods)%nat
  end.

(** The classification of the (unrounded) volatility. *)
Definition classify (volatility : pyfloat) : string :=
  if flt volatility (Fin 15) then "Low"
  else if flt volatility (Fin 25) then "Moderate"
  else "High".

(** [covariance / market_variance if market_variance > 0 else 1.0] *)
Definition raw_beta (aligned_returns aligned_market : list Q) : pyfloat :=
  let covariance := np_cov aligned_returns aligned_market in
  let market_variance := np_var aligned_market in
  if fgt market_variance (Fin 0) then fmap2 Qdiv covariance market_variance
  else Fin 1.

(** [round(beta, 2) if beta else None] *)
Definition beta_field (beta : option pyfloat) : option pyfloat :=
  match beta with
  | Some b => if ftruthy b then Some (py_round b 2) else None
  | None => None
  end.

Section Metrics.

(** [np.sqrt] on floats. *)
Variable np_sqrt : Q -> Q.

Variable w : World.

(** [s.std()] *)
Definition std (l : list Q) : pyfloat := fmap1 np_sqrt (sample_var l).

(** The annualized volatility, in percent, before rounding. *)
Definition volatility_of (returns : Series) : pyfloat :=
  fmul (fmul (std (values returns)) (Fin (np_sqrt 252))) (Fin 100).

(** The drawdown curve: the cumulative return against its running peak, as
    exact fractions. *)
Definition drawdown_of (returns : Series) : list Q :=
  let cumulative := cumprod (map (fun r => (1 + r)%Q) (values returns)) in
  let running_max := expanding_max cumulative in
  map (fun p => ((fst p - snd p) / snd p)%Q) (combine cumulative running_max).

(** The [try] block of the beta: [None] when it raises, which is when the
    benchmark history cannot be fetched. *)
Definition beta_of (returns : Series) : option pyfloat :=
  match yf_history w "SPY" "1y" with
  | None => None
  | Some spy =>
      let market_returns := pct_change (closes spy) in
      Some (raw_beta (values (aligned_returns returns market_returns))
                     (values (aligned_market returns market_returns)))
  end.

Definition _compute_risk_metrics (hist : list Bar) : RiskMetrics :=
  let returns := pct_change (closes hist) in
  let volatility := volatility_of returns in
  let drawdown := drawdown_of returns in
  let max_drawdown := fmul (series_min drawdown) (Fin 100) in
  let beta := beta_of returns in
  let recovery_periods := recovery_loop 0 false None [] drawdown in
  {| volatility_annual := py_round volatility 1;
     max_drawdown := py_round max_drawdown 1;
     beta := beta_field beta;
     avg_recovery_days := avg_recovery recovery_periods;
     risk_classification := classify volatility;
     sharp_moves_count :=
       length (List.filter (fun r => Qlt_bool (5 # 100) (Qabs r)) (values returns)) |}.

(** [prices.iloc[-k]], for [1 <= k <= len(prices)]. *)
Definition iloc_neg (prices : list Q) (k : nat) : Q :=
  nth (length prices - k) prices 0%Q.

(** [prices.iloc[-k:]] *)
Definition tail_window (prices : list Q) (k : nat) : list Q :=
  skipn (length prices - k) prices.

(** [prices.iloc[-k:-j]], for [j <= k]. *)
Definition mid_window (prices : list Q) (k j : nat) : list Q :=
  firstn (k - j) (tail_window prices k).

(** [((prices.iloc[-1] / prices.iloc[-days]) - 1) * 100] *)
Definition period_return (prices : list Q) (days : nat) : Q :=
  ((iloc_neg prices 1 / iloc_neg prices days - 1) * 100)%Q.

(** One pass of the loop over [periods].  The rounding is that of the exact
    value; the code rounds a double, which at a tie of the third decimal can
    give the neighbouring hundredth. *)
Definition trailing_return (prices : list Q) (days : nat) : option pyfloat :=
  if (days <=? length prices)%nat
  then Some (py_round (Fin (period_return prices days)) 2)
  else None.

Definition vs_market_of (prices : list Q) : option pyfloat :=
  match yf_history w "SPY" "1y" with
  | None => None
  | Some spy_hist =>
      let spy := values (closes spy_hist) in
      if (252 <=? length spy)%nat && (252 <=? length prices)%nat then
        let stock_annual := period_return prices 252 in
        let spy_annual := period_return spy 252 in
        Some (py_round (Fin (stock_annual - spy_annual)) 2)
      else None
  end.

Definition _compute_performance (hist : list Bar) : Performance :=
  let prices := values (closes hist) in
  {| return_1m := trailing_return prices 21;
     return_3m := trailing_return prices 63;
     return_6m := trailing_return prices 126;
     return_1y := trailing_return prices 252;
     vs_sp500_1y := vs_market_of prices |}.

(** The three-way comparison of a recent value with a reference value
    scaled up and down. *)
Definition band3 (recent reference up down : Q) (above below within : string) : string :=
  if Qlt_bool (reference * up) recent then above
  else if Qlt_bool recent (reference * down) then below
  else within.

Definition _analyze_trends (hist : list Bar) : Trends :=
  let prices := values (closes hist) in
  let volume := values (volumes hist) in
  let price_trend :=
    if (126 <=? length prices)%nat then
      let recent_avg := Qmean (tail_window prices 63) in
      let prior_avg := Qmean (mid_window prices 126 63) in
      band3 recent_avg prior_avg (105 # 100) (95 # 100) "rising" "declining" "stable"
    else "insufficient_data" in
  let volume_trend :=
    if (63 <=? length volume)%nat then
      let recent_vol := Qmean (tail_window volume 21) in
      let prior_vol := Qmean (mid_window volume 63 21) in
      band3 recent_vol prior_vol (12 # 10) (8 # 10) "increasing" "decreasing" "stable"
    else "insufficient_data" in
  let sma_position :=
    if (50 <=? length prices)%nat then
      let sma_50 := Qmean (tail_window prices 50) in
      let current := iloc_neg prices 1 in
      band3 current sma_50 (102 # 100) (98 # 100) "above" "below" "near"
    else "insufficient_data" in
  {| price_trend_3m := price_trend;
     volume_trend := volume_trend;
     position_vs_50day_avg := sma_position |}.

(** [round(info.get("dividendYield", 0) * 100, 2) if info.get("dividendYield") else 0] *)
Definition dividend_yield_of (info : Info) : pyfloat :=
  match info_dividendYield info with
  | Some dy => if Qeq_bool dy 0 then Fin 0 else Fin (round_q (dy * 100) 2)
  | None => Fin 0
  end.

(** [get_stock_summary]: [None] when the history is empty and when anything
    in the [try] block raises. *)
Definition get_stock_summary (ticker period : string) : option Summary :=
  match yf_history w ticker period with
  | None => None
  | Some hist =>
      match yf_info w ticker with
      | None => None
      | Some info =>
          match hist with
          | [] => None
          | _ :: _ =>
              let risk_metrics := _compute_risk_metrics hist in
              let performance_metrics := _compute_performance hist in
              let trend_analysis := _analyze_trends hist in
              Some
                {| ticker := upper ticker;
                   period := period;
                   fetch_date := today w;
                   basic_info :=
                     {| sector := default "Unknown" (info_sector info);
                        industry := default "Unknown" (info_industry info);
                        current_price :=
                          py_round (Fin (iloc_neg (values (closes hist)) 1)) 2;
                        dividend_yield := dividend_yield_of info;
                        market_cap := info_marketCap info |};
                   risk_metrics := risk_metrics;
                   performance := performance_metrics;
                   trends := trend_analysis |}
          end
      end
  end.

End Metrics.

Definition _get_volatility_context (volatility : pyfloat) (risk_tolerance : string) : string :=
  if String.eqb risk_tolerance "Low" then
    if flt volatility (Fin 15) then
      "This low volatility suggests stable price behavior suitable for conservative portfolios"
    else if flt volatility (Fin 25) then
      "This moderate volatility indicates notable price fluctuations that may exceed conservative risk thresholds"
    else
      "This high volatility represents substantial price swings and significant downside risk"
  else if String.eqb risk_tolerance "High" then
    if flt volatility (Fin 15) then
      "This low volatility limits potential for outsized returns but provides stability"
    else if flt volatility (Fin 25) then
      "This moderate volatility offers balanced opportunity for returns with manageable swings"
    else
      "This high volatility creates opportunities for significant returns during favorable market conditions"
  else
    if flt volatility (Fin 15) then
      "This low volatility provides predictable behavior with limited downside"
    else if flt volatility (Fin 25) then
      "This moderate volatility is typical for diversified portfolios seeking balanced growth"
    else
      "This high volatility exceeds typical balanced portfolio thresholds".

(** [sections.append(line)] under [if cond]. *)
Definition line_if (cond : bool) (line : string) : list string :=
  if cond then [line] else [].

(** [if v is not None: sections.append(f"  <label>: {v:+.2f}%")] *)
Definition return_line (label : string) (v : option pyfloat) : list string :=
  match v with
  | Some r => ["  " +:+ label +:+ ": " +:+ fmt_fixed 2 true r +:+ "%"]
  | None => []
  end.

Definition header_section (summary : Summary) : list string :=
  [ "=== STOCK PROFILE: " +:+ ticker summary +:+ " ===";
    "Analysis Period: " +:+ period summary +:+ " ending " +:+ fetch_date summary +:+ nl ].

Definition basic_section (basic : BasicInfo) : list string :=
  [ "BASIC INFORMATION:";
    "  Sector: " +:+ sector basic;
    "  Industry: " +:+ industry basic;
    "  Current Price: $" +:+ str_float (current_price basic) ]
  ++ line_if (fgt (dividend_yield basic) (Fin 0))
       ("  Dividend Yield: " +:+ str_float (dividend_yield basic) +:+ "%")
  ++ [ EmptyString ].

Definition risk_section (risk : RiskMetrics) (preferences : gmap string string) : list string :=
  [ "RISK CHARACTERISTICS:";
    "  Annualized Volatility: " +:+ str_float (volatility_annual risk) +:+ "% ("
      +:+ risk_classification risk +:+ " risk)";
    "  Context: " +:+
      _get_volatility_context (volatility_annual risk)
        (default "Medium" (preferences !! "risk_tolerance"));
    "  Maximum Drawdown (period): " +:+ str_float (max_drawdown risk) +:+ "%" ]
  ++ match beta risk with
     | Some b => line_if (ftruthy b) ("  Beta (market sensitivity): " +:+ str_float b)
     | None => []
     end
  ++ match avg_recovery_days risk with
     | Some n => line_if (negb (n =? 0)%nat)
                   ("  Average Recovery Time: " +:+ str_nat n +:+ " days")
     | None => []
     end
  ++ [ "  Sharp Moves (>5%): " +:+ str_nat (sharp_moves_count risk) +:+ " days";
       EmptyString ].

Definition performance_section (perf : Performance) : list string :=
  [ "HISTORICAL PERFORMANCE:" ]
  ++ return_line "1-Month Return" (return_1m perf)
  ++ return_line "3-Month Return" (return_3m perf)
  ++ return_line "1-Year Return" (return_1y perf)
  ++ match vs_sp500_1y perf with
     | Some v =>
         let benchmark_text :=
           if fgt v (Fin 0) then "outperformed" else "underperformed" in
         [ "  vs. S&P 500: " +:+ benchmark_text +:+ " by "
             +:+ fmt_fixed 2 false (fabs v) +:+ "%" ]
     | None => []
     end
  ++ [ EmptyString ].

Definition trends_section (trends : Trends) : list string :=
  [ "RECENT TRENDS:";
    "  3-Month Price Trend: " +:+ price_trend_3m trends;
    "  Volume Trend: " +:+ volume_trend trends;
    "  Position vs 50-Day Average: " +:+ position_vs_50day_avg trends ].

(** The list [sections] of [format_for_llm], for a summary that is not
    [None]. *)
Definition sections_of (summary : Summary) (preferences : gmap string string) : list string :=
  header_section summary
  ++ basic_section (basic_info summary)
  ++ risk_section (risk_metrics summary) preferences
  ++ performance_section (performance summary)
  ++ trends_section (trends summary).

Definition format_for_llm (summary : option Summary) (preferences : gmap string string) : string :=
  match summary with
  | None => "Unable to fetch stock data."
  | Some s => join nl (sections_of s preferences)
  end.

End FinancialData.

(** ** Exceptions *)

Inductive exn : Type :=
  | KeyError (key : string).

Inductive result (A : Type) : Type :=
  | Ok (a : A)
  | Raise (e : exn).

Arguments Ok {A} a.
Arguments Raise {A} e.

Definition bind {A B : Type} (r : result A) (k : A -> result B) : result B :=
  match r with
  | Ok a => k a
  | Raise e => Raise e
  end.

Notation "'let*' x ':=' r 'in' k" := (bind r (fun x => k))
  (at level 10, x name, r at level 100, k at level 200).

(** [d[key]] on a dictionary. *)
Definition getitem {V : Type} (d : gmap string V) (key : string) : result V :=
  match d !! key with
  | Some v => Ok v
  | None => Raise (KeyError key)
  end.

(** ** preference_engine.py *)

Module Preference.

Record VolFrame : Type := mkVolFrame {
  emphasis : string;
  vf_concern_language : string;
  vf_positive_language : string;
  threshold_view : string
}.

Record TimeFrame : Type := mkTimeFrame {
  tf_data_focus : string;
  volatility_impact : string;
  recovery_concern : string;
  relevant_metrics : string
}.

Record BehaviorFrame : Type := mkBehaviorFrame {
  perspective : string;
  decision_frame : string;
  uncertainty_view : string;
  bf_trade_off_priority : string
}.

Record PreferenceEngine : Type := mkEngine {
  risk_tolerance : string;
  time_horizon : string;
  risk_behavior : string
}.

Definition volatility_frames : gmap string VolFrame :=
  {[ "Low" :=
       {| emphasis := "downside protection and capital preservation";
          vf_concern_language := "risk exposure, potential losses, drawdown severity";
          vf_positive_language := "stability, predictability, preservation";
          threshold_view := "conservative risk bounds" |};
     "Medium" :=
       {| emphasis := "balanced growth with managed volatility";
          vf_concern_language := "portfolio fluctuations, risk-adjusted returns";
          vf_positive_language := "growth opportunities, reasonable stability";
          threshold_view := "moderate risk tolerance" |};
     "High" :=
       {| emphasis := "return potential and growth opportunities";
          vf_concern_language := "opportunity cost, market dynamics";
          vf_positive_language := "upside capture, aggressive growth, market opportunities";
          threshold_view := "elevated risk acceptance" |} ]}.

Definition time_frames : gmap string TimeFrame :=
  {[ "Short-term (<1yr)" :=
       {| tf_data_focus := "recent 3-6 month trends and near-term momentum";
          volatility_impact := "near-term price fluctuations and liquidity";
          recovery_concern := "short recovery windows are critical";
          relevant_metrics := "recent performance, current trends" |};
     "Long-term (>1yr)" :=
       {| tf_data_focus := "multi-year patterns and fundamental stability";
          volatility_impact := "long-term trajectory smooths short-term noise";
          recovery_concern := "extended recovery periods are acceptable";
          relevant_metrics := "sustained trends, sector fundamentals" |} ]}.

Definition behavior_frames : gmap string BehaviorFrame :=
  {[ "Risk-averse" :=
       {| perspective := "conservative with emphasis on protection";
          decision_frame := "what could go wrong and how to avoid losses";
          uncertainty_view := "threats to be mitigated";
          bf_trade_off_priority := "safety over growth" |};
     "Risk-seeking" :=
       {| perspective := "opportunistic with emphasis on potential";
          decision_frame := "what upside exists and how to capture gains";
          uncertainty_view := "opportunities to be seized";
          bf_trade_off_priority := "growth over safety" |} ]}.

Record InterpretiveContext : Type := mkContext {
  volatility_emphasis : string;
  concern_language : string;
  positive_language : string;
  data_focus : string;
  volatility_interpretation : string;
  recovery_perspective : string;
  analysis_perspective : string;
  decision_framing : string;
  trade_off_priority : string
}.

Definition get_interpretive_context (self : PreferenceEngine) : result InterpretiveContext :=
  let* vol_frame := getitem volatility_frames (risk_tolerance self) in
  let* time_frame := getitem time_frames (time_horizon self) in
  let* behavior_frame := getitem behavior_frames (risk_behavior self) in
  Ok {| volatility_emphasis := emphasis vol_frame;
        concern_language := vf_concern_language vol_frame;
        positive_language := vf_positive_language vol_frame;
        data_focus := tf_data_focus time_frame;
        volatility_interpretation := volatility_impact time_frame;
        recovery_perspective := recovery_concern time_frame;
        analysis_perspective := perspective behavior_frame;
        decision_framing := decision_frame behavior_frame;
        trade_off_priority := bf_trade_off_priority behavior_frame |}.

Definition guidance_lines (self : PreferenceEngine) (context : InterpretiveContext) : list string :=
  [ EmptyString;
    "PREFERENCE-DRIVEN ANALYSIS GUIDANCE:";
    EmptyString;
    "Risk Profile Context:";
    "- The user has " +:+ lower (risk_tolerance self) +:+ " risk tolerance with "
      +:+ lower (risk_behavior self) +:+ " behavior";
    "- Frame volatility and uncertainty in terms of: " +:+ volatility_emphasis context;
    "- When discussing risks, emphasize: " +:+ concern_language context;
    "- When discussing opportunities, emphasize: " +:+ positive_language context;
    "- Trade-off priority: " +:+ trade_off_priority context;
    EmptyString;
    "Time Horizon Context:";
    "- Investment horizon: " +:+ lower (time_horizon self);
    "- Focus analysis on: " +:+ data_focus context;
    "- Interpret volatility as: " +:+ volatility_interpretation context;
    "- Recovery time perspective: " +:+ recovery_perspective context;
    EmptyString;
    "Analysis Perspective:";
    "- Adopt a " +:+ analysis_perspective context +:+ " viewpoint";
    "- Frame decision considerations around: " +:+ decision_framing context;
    EmptyString;
    "CRITICAL: These preferences should shape HOW you interpret and present data,";
    "not just be restated. For example, the same 25% volatility should be framed";
    "as " +:+ dq +:+ "significant downside risk" +:+ dq
      +:+ " for risk-averse users but " +:+ dq +:+ "opportunity for";
    "outsized returns" +:+ dq +:+ " for risk-seeking users. The data is the same; the";
    "interpretation changes based on user context.";
    EmptyString ].

Definition get_prompt_guidance (self : PreferenceEngine) : result string :=
  let* context := get_interpretive_context self in
  Ok (join nl (guidance_lines self context)).

Definition _interpret_volatility (self : PreferenceEngine) (vol : pyfloat) : result string :=
  let* vol_frame := getitem volatility_frames (risk_tolerance self) in
  Ok (if String.eqb (risk_tolerance self) "Low" then
        if flt vol (Fin 15) then
          str_float vol +:+ "% volatility indicates stable, predictable behavior aligned with conservative objectives"
        else if flt vol (Fin 25) then
          str_float vol +:+ "% volatility suggests price swings that may exceed comfort thresholds for capital preservation"
        else
          str_float vol +:+ "% volatility represents substantial fluctuation risk unsuitable for conservative portfolios"
      else if String.eqb (risk_tolerance self) "High" then
        if flt vol (Fin 15) then
          str_float vol +:+ "% volatility suggests limited price movement, constraining potential for aggressive returns"
        else if flt vol (Fin 25) then
          str_float vol +:+ "% volatility provides meaningful opportunity for returns while remaining investable"
        else
          str_float vol +:+ "% volatility creates significant return potential during favorable market phases"
      else
        if flt vol (Fin 15) then
          str_float vol +:+ "% volatility indicates low-risk behavior suitable for core holdings"
        else if flt vol (Fin 25) then
          str_float vol +:+ "% volatility is typical for balanced growth strategies"
        else
          str_float vol +:+ "% volatility exceeds typical balanced portfolio guidelines").

Definition _interpret_drawdown (self : PreferenceEngine) (dd : pyfloat) : string :=
  let dd_abs := fabs dd in
  if String.eqb (risk_behavior self) "Risk-averse" then
    if flt dd_abs (Fin 10) then
      fmt_fixed 1 false dd +:+ "% maximum drawdown indicates limited downside exposure"
    else if flt dd_abs (Fin 20) then
      fmt_fixed 1 false dd +:+ "% maximum drawdown represents notable capital risk requiring consideration"
    else
      fmt_fixed 1 false dd +:+ "% maximum drawdown signals severe downside exposure posing preservation challenges"
  else
    if flt dd_abs (Fin 10) then
      fmt_fixed 1 false dd +:+ "% maximum drawdown suggests constrained volatility limiting return potential"
    else if flt dd_abs (Fin 20) then
      fmt_fixed 1 false dd +:+ "% maximum drawdown is typical for growth-oriented investments"
    else
      fmt_fixed 1 false dd +:+ "% maximum drawdown indicates high volatility characteristic of aggressive positions".

Definition _interpret_beta (self : PreferenceEngine) (beta : pyfloat) : string :=
  let sensitivity :=
    if flt beta (Fin (8 # 10)) then "below-market volatility"
    else if flt beta (Fin (12 # 10)) then "market-like volatility"
    else "above-market volatility" in
  let lead := "Beta of " +:+ fmt_fixed 2 false beta +:+ " indicates " +:+ sensitivity in
  if String.eqb (risk_behavior self) "Risk-averse" then
    if flt beta (Fin (8 # 10)) then lead +:+ ", providing defensive characteristics"
    else if flt beta (Fin (12 # 10)) then lead +:+ ", tracking market movements closely"
    else lead +:+ ", amplifying market downturns"
  else
    if flt beta (Fin (8 # 10)) then lead +:+ ", limiting upside capture potential"
    else if flt beta (Fin (12 # 10)) then lead +:+ ", participating in market gains proportionally"
    else lead +:+ ", amplifying market upside".

Definition interpret_risk_metric (self : PreferenceEngine) (metric_name : string)
    (value : pyfloat) : result string :=
  if String.eqb metric_name "volatility" then _interpret_volatility self value
  else if String.eqb metric_name "drawdown" then Ok (_interpret_drawdown self value)
  else if String.eqb metric_name "beta" then Ok (_interpret_beta self value)
  else Ok (metric_name +:+ ": " +:+ str_float value).

End Preference.

(** ** query_data_dss.py *)

Module QueryDss.

Import FinancialData Preference.

(** [check_ollama_running] *)
Definition check_ollama_running (w : World) : bool * list string :=
  match ollama_tags w with
  | Some models => ((0 <? length models)%nat, models)
  | None => (false, [])
  end.

(** [retrieve_rules]: any exception in the [try] block gives [("", [])]. *)
Definition retrieve_rules (w : World) (query_text ticker : string) : string * list string :=
  let search_query := query_text +:+ " " +:+ ticker +:+ " investment rules constraints" in
  match similarity_search w search_query with
  | None => (EmptyString, [])
  | Some [] => (EmptyString, [])
  | Some docs =>
      let rules_parts :=
        imap (fun i doc => "[Rule " +:+ str_nat (S i) +:+ "] " +:+ strip (page_content doc)) docs in
      let sources := map (fun doc => default "Unknown" (doc_source doc)) docs in
      (join (nl +:+ nl) rules_parts, sources)
  end.

Definition dss_system_prompt : string :=
  join nl
    [ "You are a financial decision support analyst. Your role is to provide structured, objective insights that help users understand investment characteristics and trade-offs"
        +:+ emdash +:+ "NOT to recommend specific actions.";
      EmptyString;
      "        CORE PRINCIPLES:";
      "        1. NEVER recommend " +:+ dq +:+ "buy" +:+ dq +:+ ", " +:+ dq +:+ "sell" +:+ dq
        +:+ ", or " +:+ dq +:+ "hold" +:+ dq;
      "        2. EXPLAIN implications and trade-offs, don't make judgments";
      "        3. HIGHLIGHT alignments and misalignments with user preferences and rules";
      "        4. FRAME historical data as contextual evidence, not predictions";
      "        5. MAINTAIN exploratory tone: " +:+ dq +:+ "This suggests..." +:+ dq +:+ " not "
        +:+ dq +:+ "You should..." +:+ dq;
      "        ";
      "        ANALYSIS STRUCTURE:";
      "        - Synthesize financial data with user preferences and constraints";
      "        - Identify key considerations relevant to the user's question";
      "        - Explain trade-offs between different characteristics";
      "        - Flag any conflicts between stock characteristics and stated rules";
      "        - Present information in a balanced, informative manner";
      "        " ].

Definition build_dss_prompt (query financial_context rules_context preference_guidance : string)
    : string :=
  join nl
    [ dss_system_prompt;
      EmptyString;
      "        " +:+ preference_guidance;
      "        ";
      "        FINANCIAL DATA:";
      "        " +:+ financial_context;
      "        ";
      "        " +:+ rules_context;
      "        ";
      "        USER QUESTION:";
      "        " +:+ query;
      "        ";
      "        INSTRUCTIONS:";
      "        Provide a comprehensive DSS analysis that:";
      "        1. Directly addresses the user's question";
      "        2. Interprets financial data through the lens of their preferences";
      "        3. Highlights alignment or misalignment with any stated rules";
      "        4. Explains relevant trade-offs and considerations";
      "        5. Avoids making recommendations or decisions";
      "        ";
      "        Your response should help the user understand the investment characteristics and how they relate to their stated preferences and constraints, while leaving the ultimate decision to them.";
      "        ";
      "        ANALYSIS:";
      "        " ].

(** The lines of the prompt that contain every one of [markers], each as
    a bullet. *)
Definition extract (markers : list string) (lines : list string) : list string :=
  map (fun line => bullet +:+ " " +:+ strip line)
      (List.filter (fun line => forallb (fun m => contains m line) markers) lines).

(** The three extraction loops of the fallback, in order. *)
Definition extracted_facts (prompt : string) : list string :=
  let lines := split_nl prompt in
  extract ["Annualized Volatility:"] lines
  ++ extract ["Return"; "%"] lines
  ++ extract ["Sector:"] lines.

Definition fallback_parts (prompt : string) : list string :=
  [ "DECISION SUPPORT ANALYSIS:";
    EmptyString;
    "Based on the provided financial data and your preferences, here are the key considerations:";
    EmptyString ]
  ++ extracted_facts prompt
  ++ [ EmptyString;
       "This analysis is based on historical data and should be considered alongside your personal investment constraints and risk tolerance.";
       EmptyString;
       "For more detailed analysis, please ensure Ollama is running with a language model installed." ].

Definition generate_structured_fallback (prompt : string) : string :=
  join nl (fallback_parts prompt).

(** The first tier: [None] when it is skipped, raises or is rejected. *)
Definition try_ollama (w : World) (prompt : string) : option string :=
  let '(ollama_running, models) := check_ollama_running w in
  match models with
  | first :: _ =>
      if ollama_running then
        let model_name :=
          if existsb (contains "llama3.2") models then "llama3.2" else first in
        match ollama_invoke w model_name prompt with
        | Some response =>
            if (100 <? py_len (strip response))%nat
            then Some (strip response) else None
        | None => None
        end
      else None
  | [] => None
  end.

(** The second tier: [None] when it raises or is rejected. *)
Definition try_huggingface (w : World) (prompt : string) : option string :=
  match hf_generate w prompt with
  | Some generated_text =>
      let response := strip (drop (py_len prompt) generated_text) in
      if (50 <? py_len response)%nat then Some response else None
  | None => None
  end.

Definition query_llm_with_dss_prompt (w : World) (prompt : string) : string :=
  match try_ollama w prompt with
  | Some response => response
  | None =>
      match try_huggingface w prompt with
      | Some response => response
      | None => generate_structured_fallback prompt
      end
  end.

(** Step 2 of [query_financial_dss]: the engine built from the caller's
    dictionary. *)
Definition make_pref_engine (preferences : gmap string string) : PreferenceEngine :=
  {| risk_tolerance := default "Medium" (preferences !! "risk_tolerance");
     time_horizon := default "Long-term (>1yr)" (preferences !! "time_horizon");
     risk_behavior := default "Risk-averse" (preferences !! "risk_behavior") |}.

(** Step 4 of [query_financial_dss]: the rules block and the sources. *)
Definition rules_step (w : World) (query_text ticker : string) (use_rules : bool)
    : string * list string :=
  if use_rules && chroma_exists w then
    let '(rules_text, rule_sources) := retrieve_rules w query_text ticker in
    if truthy rules_text then
      (nl +:+ "RELEVANT RULES AND CONSTRAINTS:" +:+ nl +:+ rules_text +:+ nl, rule_sources)
    else (EmptyString, [])
  else (EmptyString, []).

Definition unable_message (ticker : string) : string :=
  "Unable to fetch data for ticker " +:+ ticker +:+ ". Please verify the ticker symbol.".

Section Pipeline.

Variable np_sqrt : Q -> Q.

(** [query_financial_dss]; the sources are returned without duplicates, in
    an order the set decides. *)
Definition query_financial_dss (w : World) (query_text ticker : string)
    (preferences : gmap string string) (use_rules : bool)
    : result (string * list string * option Summary) :=
  match get_stock_summary np_sqrt w ticker "1y" with
  | None => Ok (unable_message ticker, [], None)
  | Some stock_summary =>
      let pref_engine := make_pref_engine preferences in
      let financial_context := format_for_llm (Some stock_summary) preferences in
      let '(rules_context, sources) := rules_step w query_text ticker use_rules in
      let* preference_guidance := get_prompt_guidance pref_engine in
      let prompt :=
        build_dss_prompt query_text financial_context rules_context preference_guidance in
      let response_text := query_llm_with_dss_prompt w prompt in
      Ok (response_text, remove_dups sources, Some stock_summary)
  end.

End Pipeline.

End QueryDss.

(** ** query_data_dss.py: the legacy document query *)

Module QueryRag.

Import QueryDss.

(** [s[:n]] *)
Fixpoint take (n : nat) (s : string) : string :=
  match n, s with
  | S n', String c s' => String c (take n' s')
  | _, _ => EmptyString
  end.

Definition source_of (doc : Doc) : string := default "Unknown" (doc_source doc).

(** The fallback of [query_rag]: the first 300 characters of each of the
    first three passages, joined and cut at 500, and the source of every
    passage. *)
Definition rag_fallback (docs : list Doc) : string * list string :=
  let context :=
    join (nl +:+ nl) (map (fun doc => take 300 (page_content doc)) (firstn 3 docs)) in
  ("Based on the documents: " +:+ take 500 context +:+ "...", map source_of docs).

Section Chain.

(** The question-answering chain built on a model and the index:
    [qa_chain.invoke({"query": q})] gives the answer and the source documents;
    [None] when building or invoking it raises. *)
Variable qa_chain : string -> string -> option (string * list Doc).

(** The model tier of [query_rag]: [None] when it is skipped or raises. *)
Definition rag_ollama (w : World) (query_text : string) : option (string * list string) :=
  let '(ollama_running, models) := check_ollama_running w in
  match models with
  | first :: _ =>
      if ollama_running then
        let model_name :=
          if existsb (contains "llama3.2") models then "llama3.2" else first in
        match qa_chain model_name query_text with
        | Some (response_text, source_documents) =>
            Some (response_text, remove_dups (map source_of source_documents))
        | None => None
        end
      else None
  | [] => None
  end.

(** [query_rag]: [None] when the exception of the index escapes, there
    being no [except] around the search. *)
Definition query_rag (w : World) (query_text : string) : option (string * list string) :=
  if negb (chroma_exists w) then
    Some ("Database not found. Please run create_database.py first to create the vector database.", [])
  else
    match similarity_search w query_text with
    | None => None
    | Some [] => Some ("No relevant documents found for your query.", [])
    | Some docs =>
        match rag_ollama w query_text with
        | Some answer => Some answer
        | None => Some (rag_fallback docs)
        end
    end.

End Chain.

End QueryRag.

(** ** Sample inputs *)

Module Samples.

Import FinancialData Preference QueryDss.

(** The square root to three decimals, for [np.sqrt]. *)
Definition sqrt_milli (q : Q) : Q :=
  (inject_Z (Z.sqrt (Qfloor (q * 1000000))) / 1000)%Q.

(** A history with the given closes, on consecutive dates from [d0]. *)
Definition bars_from (d0 : Z) (prices : list Q) : list Bar :=
  imap (fun i p => mkBar (d0 + Z.of_nat i) p 1000) prices.

(** One year of AAPL: flat, a dip of 10% and its recovery, flat again, and a
    jump on the last day. *)
Definition aapl_year : list Bar :=
  bars_from 0 (repeat 100%Q 100 ++ [97; 92; 90; 95; 99; 100; 101; 102; 103]%Q
               ++ repeat 104%Q 142 ++ [110]%Q).

(** One year of the benchmark, with two moves in the middle. *)
Definition spy_year : list Bar :=
  bars_from 0 (repeat 100%Q 125 ++ [102; 101]%Q ++ repeat 100%Q 125).

Definition tech_info : Info :=
  {| info_sector := Some "Technology";
     info_industry := Some "Consumer Electronics";
     info_dividendYield := Some (5 # 1000);
     info_marketCap := None |}.

(** A world with AAPL and the benchmark, and neither rule index nor
    generation backend. *)
Definition sample_world : World :=
  {| yf_history := fun t _ =>
       if String.eqb t "AAPL" then Some aapl_year
       else if String.eqb t "SPY" then Some spy_year
       else Some [];
     yf_info := fun _ => Some tech_info;
     today := "2024-01-02";
     chroma_exists := false;
     similarity_search := fun _ => None;
     ollama_tags := None;
     ollama_invoke := fun _ _ => None;
     hf_generate := fun _ => None |}.

(** The same world with both generation tiers up and terse: the first
    answers in a few words, the second adds a few words to the prompt. *)
Definition terse_world : World :=
  {| yf_history := yf_history sample_world;
     yf_info := yf_info sample_world;
     today := today sample_world;
     chroma_exists := true;
     similarity_search := fun _ => Some [];
     ollama_tags := Some ["llama3.2:latest"];
     ollama_invoke := fun _ _ => Some "  I cannot say.  ";
     hf_generate := fun prompt => Some (prompt +:+ " Hard to tell.") |}.

(** The square root to six decimals. *)
Definition sqrt_micro (q : Q) : Q :=
  (inject_Z (Z.sqrt (Qfloor (q * 1000000000000))) / 1000000)%Q.

(** Three rows whose annualized volatility is a little under 15. *)
Definition edge_days : list Bar := bars_from 0 [100000; 101334; 101334]%Q.

(** A world whose market-data service has the history [stock] for every
    ticker but the benchmark, and [spy] (or an error) for the benchmark. *)
Definition world_with (stock : list Bar) (spy : option (list Bar)) : World :=
  {| yf_history := fun t _ => if String.eqb t "SPY" then spy else Some stock;
     yf_info := fun _ => Some tech_info;
     today := "2024-01-02";
     chroma_exists := false;
     similarity_search := fun _ => None;
     ollama_tags := None;
     ollama_invoke := fun _ _ => None;
     hf_generate := fun _ => None |}.

Definition second_day : list Bar := bars_from 125 [100; 103]%Q.

(** Five days of a stock, and of a benchmark that moves, or does not. *)
Definition choppy_week : list Bar := bars_from 0 [100; 110; 99; 104; 108]%Q.
Definition market_week : list Bar := bars_from 0 [100; 102; 101; 103; 104]%Q.
Definition flat_week : list Bar := bars_from 0 [100; 100; 100; 100; 100]%Q.

(** Six days with a dip of 10% that is made up in two days. *)
Definition dip_week : list Bar := bars_from 0 [100; 100; 90; 92; 100; 100]%Q.

(** Twenty-one days that start at 3 and end at 4. *)
Definition thirds_month : list Bar := bars_from 0 (repeat 3%Q 20 ++ [4%Q]).

(** The sample world with a rule index that finds three passages, two of
    them from one document, and no generation backend. *)
Definition policy_passages : list Doc :=
  [ mkDoc "  Hold at most 5% in one stock. " (Some "policy.pdf");
    mkDoc "No leverage." None;
    mkDoc "Prefer dividend payers." (Some "policy.pdf") ].

Definition rules_world : World :=
  {| yf_history := yf_history sample_world;
     yf_info := yf_info sample_world;
     today := today sample_world;
     chroma_exists := true;
     similarity_search := fun _ => Some policy_passages;
     ollama_tags := None;
     ollama_invoke := fun _ _ => None;
     hf_generate := fun _ => None |}.

(** An answer of more than 100 characters, with blanks around it. *)
Definition long_answer : string :=
  "  This stock shows moderate volatility, which suggests price swings that a conservative profile may find uncomfortable.  ".

(** The sample world with a service that lists two models and answers at
    length as llama3.2 only, and with passages for the legacy query. *)
Definition chatty_world : World :=
  {| yf_history := yf_history sample_world;
     yf_info := yf_info sample_world;
     today := today sample_world;
     chroma_exists := true;
     similarity_search := fun _ => Some policy_passages;
     ollama_tags := Some ["mistral:7b"; "llama3.2:latest"];
     ollama_invoke := fun model _ =>
       if String.eqb model "llama3.2" then Some long_answer else None;
     hf_generate := fun _ => None |}.

(** The sample world with a first tier that answers with the prompt it was
    given. *)
Definition echo_world : World :=
  {| yf_history := yf_history sample_world;
     yf_info := yf_info sample_world;
     today := today sample_world;
     chroma_exists := false;
     similarity_search := fun _ => None;
     ollama_tags := Some ["llama3.2:latest"];
     ollama_invoke := fun _ prompt => Some prompt;
     hf_generate := fun _ => None |}.

(** A narrative line as the formatter writes it. *)
Definition volatility_line : string := "  Annualized Volatility: 22.0% (Moderate risk)".

End Samples.

Import FinancialData Preference QueryDss QueryRag Samples.

(** ** Vocabulary of the statements *)

(** The summary with its 6-month return replaced. *)
Definition set_return_6m (r : option pyfloat) (s : Summary) : Summary :=
  {| ticker := ticker s;
     period := period s;
     fetch_date := fetch_date s;
     basic_info := basic_info s;
     risk_metrics := risk_metrics s;
     performance :=
       {| return_1m := return_1m (performance s);
          return_3m := return_3m (performance s);
          return_6m := r;
          return_1y := return_1y (performance s);
          vs_sp500_1y := vs_sp500_1y (performance s) |};
     trends := trends s |}.

(** The keys of [volatility_frames]. *)
Definition tolerances : list string := ["Low"; "Medium"; "High"].

(** The phrase the volatility explainer appends to the number, by risk
    tolerance and band. *)
Definition volatility_phrase (rt band : string) : string :=
  if String.eqb rt "Low" then
    if String.eqb band "Low" then
      "% volatility indicates stable, predictable behavior aligned with conservative objectives"
    else if String.eqb band "Moderate" then
      "% volatility suggests price swings that may exceed comfort thresholds for capital preservation"
    else
      "% volatility represents substantial fluctuation risk unsuitable for conservative portfolios"
  else if String.eqb rt "High" then
    if String.eqb band "Low" then
      "% volatility suggests limited price movement, constraining potential for aggressive returns"
    else if String.eqb band "Moderate" then
      "% volatility provides meaningful opportunity for returns while remaining investable"
    else
      "% volatility creates significant return potential during favorable market phases"
  else
    if String.eqb band "Low" then
      "% volatility indicates low-risk behavior suitable for core holdings"
    else if String.eqb band "Moderate" then
      "% volatility is typical for balanced growth strategies"
    else
      "% volatility exceeds typical balanced portfolio guidelines".

(** The first tier has nothing to run: the service is unreachable or lists
    no model. *)
Definition ollama_unavailable (w : World) : Prop :=
  ollama_tags w = None \/ ollama_tags w = Some [].

(** Whatever the first tier returns for the prompt is at most 100
    characters long once stripped. *)
Definition ollama_below_threshold (w : World) (prompt : string) : Prop :=
  forall model response : string,
    ollama_invoke w model prompt = Some response ->
    (py_len (strip response) <= 100)%nat.

(** Whatever the second tier generates after the prompt is at most 50
    characters long once stripped. *)
Definition huggingface_below_threshold (w : World) (prompt : string) : Prop :=
  forall generated_text : string,
    hf_generate w prompt = Some generated_text ->
    (py_len (strip (drop (py_len prompt) generated_text)) <= 50)%nat.

(** The keys of [time_frames] and of [behavior_frames]. *)
Definition horizons : list string := ["Short-term (<1yr)"; "Long-term (>1yr)"].
Definition behaviors : list string := ["Risk-averse"; "Risk-seeking"].

(** Each axis, as the engine will read it, is one of the keys of its frame
    table. *)
Definition valid_preferences (preferences : gmap string string) : Prop :=
  In (risk_tolerance (make_pref_engine preferences)) tolerances
  /\ In (time_horizon (make_pref_engine preferences)) horizons
  /\ In (risk_behavior (make_pref_engine preferences)) behaviors.

(** The search the retriever issues finds nothing: it raises, as it does
    without an index, or returns no passage. *)
Definition no_rules_found (w : World) (query_text ticker : string) : Prop :=
  let search_query := query_text +:+ " " +:+ ticker +:+ " investment rules constraints" in
  similarity_search w search_query = None \/ similarity_search w search_query = Some [].

(** The dictionary with the default written in for a key it lacks. *)
Definition fill (key value : string) (preferences : gmap string string)
    : gmap string string :=
  match preferences !! key with
  | Some _ => preferences
  | None => <[key := value]> preferences
  end.

(** The dictionary with the three defaults of [query_financial_dss] written
    in. *)
Definition with_defaults (preferences : gmap string string) : gmap string string :=
  fill "risk_behavior" "Risk-averse"
    (fill "time_horizon" "Long-term (>1yr)"
       (fill "risk_tolerance" "Medium" preferences)).

(** The windows of [_compute_performance], in rows. *)
Definition windows : list nat := [21; 63; 126; 252]%nat.

(** The field of the performance metrics that holds the return over a
    window of [days] rows. *)
Definition return_field (perf : Performance) (days : nat) : option pyfloat :=
  if (days =? 21)%nat then return_1m perf
  else if (days =? 63)%nat then return_3m perf
  else if (days =? 126)%nat then return_6m perf
  else if (days =? 252)%nat then return_1y perf
  else None.

(** Every close of the history is positive. *)
Definition positive_closes (hist : list Bar) : Prop :=
  Forall (fun b => (0 < bar_close b)%Q) hist.



(** The plain sum. *)
Definition total (l : list Q) : Q := fold_right Qplus 0%Q l.


(** The text has no line break. *)
Fixpoint no_newline (s : string) : bool :=
  match s with
  | EmptyString => true
  | String c s' => negb (Ascii.eqb c (ascii_of_nat 10)) && no_newline s'
  end.

(** Every value of the series is positive. *)
Definition positive_series (s : Series) : Prop :=
  Forall (fun p => (0 < snd p)%Q) s.

(** Each value of the curve is positive and at most the running peak
    beside it. *)
Definition under_peak (p : Q * Q) : Prop := (0 < fst p)%Q /\ (fst p <= snd p)%Q.

(** A drawdown is a loss of less than the whole, or nothing. *)
Definition loss_fraction (d : Q) : Prop := (-1 < d)%Q /\ (d <= 0)%Q.

(** The section headings of the narrative. *)
Definition headings : list string :=
  [ "BASIC INFORMATION:"; "RISK CHARACTERISTICS:";
    "HISTORICAL PERFORMANCE:"; "RECENT TRENDS:" ].

(** The entry is one of the section headings. *)
Definition is_heading (entry : string) : bool :=
  existsb (String.eqb entry) headings.

(** The entry is a context sentence. *)
Definition is_context (entry : string) : bool :=
  String.prefix "  Context: " entry.

(** Each axis of the engine is a key of its frame table. *)
Definition known (self : PreferenceEngine) : Prop :=
  In (risk_tolerance self) tolerances
  /\ In (time_horizon self) horizons
  /\ In (risk_behavior self) behaviors.

(** The twelve engines over the keys of the three tables. *)
Definition known_vectors : list PreferenceEngine :=
  flat_map (fun rt =>
    flat_map (fun th => map (fun rb => mkEngine rt th rb) behaviors) horizons)
    tolerances.

(** Equality of engines, axis by axis. *)
Definition engine_eqb (e1 e2 : PreferenceEngine) : bool :=
  String.eqb (risk_tolerance e1) (risk_tolerance e2)
  && String.eqb (time_horizon e1) (time_horizon e2)
  && String.eqb (risk_behavior e1) (risk_behavior e2).

(** One fragment of the context for each axis, a line each. *)
Definition context_key (self : PreferenceEngine) : string :=
  match get_interpretive_context self with
  | Ok c => volatility_emphasis c +:+ nl +:+ data_focus c +:+ nl +:+ analysis_perspective c
  | Raise _ => EmptyString
  end.

(** The guidance text of an engine, empty when it raises. *)
Definition guidance_text (self : PreferenceEngine) : string :=
  match get_prompt_guidance self with
  | Ok guidance => guidance
  | Raise _ => EmptyString
  end.

(** Two engines are the same, or differ in context and in guidance. *)
Definition told_apart (e1 e2 : PreferenceEngine) : bool :=
  engine_eqb e1 e2
  || (negb (String.eqb (context_key e1) (context_key e2))
      && negb (String.eqb (guidance_text e1) (guidance_text e2))).

(** The fixed texts of the prompt, around its four inputs: before the
    guidance. *)
Definition prompt_opening : string :=
  dss_system_prompt +:+ nl +:+ nl +:+ "        ".

(** Between the guidance and the narrative. *)
Definition prompt_before_data : string :=
  nl +:+ "        " +:+ nl +:+ "        FINANCIAL DATA:" +:+ nl +:+ "        ".

(** Between the narrative and the rules block. *)
Definition prompt_before_rules : string :=
  nl +:+ "        " +:+ nl +:+ "        ".

(** Between the rules block and the question. *)
Definition prompt_before_question : string :=
  nl +:+ "        " +:+ nl +:+ "        USER QUESTION:" +:+ nl +:+ "        ".

(** After the question. *)
Definition prompt_closing : string :=
  nl +:+
  join nl
    [ "        ";
      "        INSTRUCTIONS:";
      "        Provide a comprehensive DSS analysis that:";
      "        1. Directly addresses the user's question";
      "        2. Interprets financial data through the lens of their preferences";
      "        3. Highlights alignment or misalignment with any stated rules";
      "        4. Explains relevant trade-offs and considerations";
      "        5. Avoids making recommendations or decisions";
      "        ";
      "        Your response should help the user understand the investment characteristics and how they relate to their stated preferences and constraints, while leaving the ultimate decision to them.";
      "        ";
      "        ANALYSIS:";
      "        " ].

(** The model the first tier runs. *)
Definition chosen_model (first : string) (models : list string) : string :=
  if existsb (contains "llama3.2") (first :: models) then "llama3.2" else first.

(** The line has one of the markers the fallback looks for. *)
Definition has_marker (line : string) : Prop :=
  contains "Annualized Volatility:" line = true
  \/ (contains "Return" line = true /\ contains "%" line = true)
  \/ contains "Sector:" line = true.

(** ** Auxiliary facts *)

(** The summary of a ticker in a sample world, by computation. *)
Ltac summary_of np_sqrt w ticker period s Hs :=
  let v := eval vm_compute in (get_stock_summary np_sqrt w ticker period) in
  match v with
  | Some ?x =>
      pose (s := x);
      assert (Hs : get_stock_summary np_sqrt w ticker period = Some s)
        by (vm_compute; reflexivity)
  end.


Lemma append_inv_head (s a b : string) : s +:+ a = s +:+ b -> a = b.
Proof.
  induction s as [|c s IH]; simpl; intros H.
  - exact H.
  - injection H as H. auto.
Qed.

Lemma Qlt_bool_iff (a b : Q) : Qlt_bool a b = true <-> (a < b)%Q.
Proof.
  unfold Qlt_bool. rewrite negb_true_iff.
  split.
  - intros H. apply Qnot_le_lt. intros Hle.
    apply Qle_bool_iff in Hle. congruence.
  - intros H. destruct (Qle_bool b a) eqn:E; [|reflexivity].
    apply Qle_bool_iff in E. exfalso. exact (Qlt_not_le _ _ H E).
Qed.

Lemma Qlt_bool_false_iff (a b : Q) : Qlt_bool a b = false <-> (b <= a)%Q.
Proof.
  unfold Qlt_bool. rewrite negb_false_iff. apply Qle_bool_iff.
Qed.

(** ** The narrative formatter *)

(** C1.  The narrative never shows the 6-month return: the text is the same
    whatever that field holds.  For the one-year AAPL history of the samples
    the summary has a 6-month return of 5.77 and a beta of 0.0, neither of
    them null, while the narrative, which shows the 1-month and the 1-year
    return, has no 6-month line and no beta line. *)
Theorem format_for_llm_omits_return_6m :
  (forall (s : Summary) (r : option pyfloat) (preferences : gmap string string),
      format_for_llm (Some (set_return_6m r s)) preferences
      = format_for_llm (Some s) preferences)
  /\ (let summary := get_stock_summary sqrt_milli sample_world "AAPL" "1y" in
      let text := format_for_llm summary ∅ in
      option_map (fun s => return_6m (performance s)) summary
        = Some (Some (Fin (577 # 100)))
      /\ option_map (fun s => beta (risk_metrics s)) summary
         = Some (Some (Fin (0 # 100)))
      /\ contains "  1-Month Return: +5.77%" text = true
      /\ contains "  1-Year Return: +10.00%" text = true
      /\ contains "6-Month" text = false
      /\ contains "Beta" text = false).
Proof.
  split.
  - intros s r preferences. reflexivity.
  - vm_compute. repeat split; reflexivity.
Qed.

(** ** Risk classification and the per-metric explainers *)

Lemma volatility_frame_defined (rt : string) :
  In rt tolerances -> exists frame, getitem volatility_frames rt = Ok frame.
Proof.
  unfold tolerances. simpl.
  intros [<-|[<-|[<-|[]]]]; eexists; vm_compute; reflexivity.
Qed.

(** The band of a finite volatility, by cases on the two thresholds. *)
Lemma classify_cases (v : Q) :
  ((v < 15)%Q /\ flt (Fin v) (Fin 15) = true /\ classify (Fin v) = "Low")
  \/ ((15 <= v)%Q /\ (v < 25)%Q /\ flt (Fin v) (Fin 15) = false
      /\ flt (Fin v) (Fin 25) = true /\ classify (Fin v) = "Moderate")
  \/ ((25 <= v)%Q /\ flt (Fin v) (Fin 15) = false
      /\ flt (Fin v) (Fin 25) = false /\ classify (Fin v) = "High").
Proof.
  unfold classify. simpl flt.
  destruct (Qlt_bool v 15) eqn:E15.
  - left. apply Qlt_bool_iff in E15. auto.
  - apply Qlt_bool_false_iff in E15.
    destruct (Qlt_bool v 25) eqn:E25.
    + right; left. apply Qlt_bool_iff in E25. auto.
    + right; right. apply Qlt_bool_false_iff in E25. auto.
Qed.

(** With a tolerance that has a frame, the explainer writes the number,
    the same text under every engine, and then the phrase of the band the
    classification gives. *)
Lemma interpret_volatility_by_band (vol : pyfloat) :
  exists number : string,
    forall rt th rb : string,
      In rt tolerances ->
      _interpret_volatility (mkEngine rt th rb) vol
      = Ok (number +:+ volatility_phrase rt (classify vol)).
Proof.
  exists (str_float vol). intros rt th rb Hrt.
  unfold _interpret_volatility, classify.
  cbn [risk_tolerance].
  destruct (volatility_frame_defined rt Hrt) as [frame ->].
  cbn [bind].
  remember (str_float vol) as text.
  destruct (flt vol (Fin 15)), (flt vol (Fin 25));
    unfold tolerances in Hrt; simpl in Hrt;
    destruct Hrt as [<-|[<-|[<-|[]]]]; reflexivity.
Qed.

Lemma volatility_phrase_by_band (rt : string) :
  volatility_phrase rt "Low" <> volatility_phrase rt "Moderate"
  /\ volatility_phrase rt "Moderate" <> volatility_phrase rt "High"
  /\ volatility_phrase rt "Low" <> volatility_phrase rt "High".
Proof.
  unfold volatility_phrase.
  destruct (String.eqb rt "Low"), (String.eqb rt "High");
    cbn; repeat split; discriminate.
Qed.

Lemma volatility_phrase_by_tolerance (rt1 rt2 band : string) :
  In rt1 tolerances -> In rt2 tolerances -> rt1 <> rt2 ->
  In band ["Low"; "Moderate"; "High"] ->
  volatility_phrase rt1 band <> volatility_phrase rt2 band.
Proof.
  unfold tolerances. simpl.
  intros [<-|[<-|[<-|[]]]] [<-|[<-|[<-|[]]]] Hne [<-|[<-|[<-|[]]]];
    try (exfalso; apply Hne; reflexivity); cbn; discriminate.
Qed.

Lemma classify_band (vol : pyfloat) : In (classify vol) ["Low"; "Moderate"; "High"].
Proof.
  unfold classify.
  destruct (flt vol (Fin 15)), (flt vol (Fin 25)); simpl; auto.
Qed.

(** A history of two rows has one return and no standard deviation: the
    volatility is NaN, which is not at least 25, and the summary classifies
    it High. *)
Lemma nan_volatility_is_classified_high :
  let w := world_with second_day (Some spy_year) in
  length second_day = 2%nat
  /\ volatility_of sqrt_milli (pct_change (closes second_day)) = NaN
  /\ fge NaN (Fin 25) = false
  /\ option_map (fun s => risk_classification (risk_metrics s))
       (get_stock_summary sqrt_milli w "NEWCO" "1y")
     = Some "High".
Proof.
  vm_compute. repeat split; reflexivity.
Qed.

(** C6, as the code has it.  When the volatility of a history is a number
    v, the risk classification of its metrics is Low exactly when v < 15,
    Moderate exactly when 15 <= v < 25, and High exactly when 25 <= v.  For
    each risk tolerance the volatility explainer closes its sentence, after
    the number, with the phrase of the low band below 15, of the moderate
    band from 15 up to but not including 25, and of the high band from 25 up,
    and the three phrases differ. *)
Theorem classification_bands_at_15_and_25 (v : Q) :
  (forall (np_sqrt : Q -> Q) (w : World) (hist : list Bar),
      volatility_of np_sqrt (pct_change (closes hist)) = Fin v ->
      let class := risk_classification (_compute_risk_metrics np_sqrt w hist) in
      (class = "Low" <-> (v < 15)%Q)
      /\ (class = "Moderate" <-> (15 <= v)%Q /\ (v < 25)%Q)
      /\ (class = "High" <-> (25 <= v)%Q))
  /\ (forall rt th rb : string,
      In rt tolerances ->
      ((v < 15)%Q ->
       exists number : string,
         _interpret_volatility (mkEngine rt th rb) (Fin v)
         = Ok (number +:+ volatility_phrase rt "Low"))
      /\ ((15 <= v)%Q -> (v < 25)%Q ->
          exists number : string,
            _interpret_volatility (mkEngine rt th rb) (Fin v)
            = Ok (number +:+ volatility_phrase rt "Moderate"))
      /\ ((25 <= v)%Q ->
          exists number : string,
            _interpret_volatility (mkEngine rt th rb) (Fin v)
            = Ok (number +:+ volatility_phrase rt "High"))
      /\ volatility_phrase rt "Low" <> volatility_phrase rt "Moderate"
      /\ volatility_phrase rt "Moderate" <> volatility_phrase rt "High"
      /\ volatility_phrase rt "Low" <> volatility_phrase rt "High").
Proof.
  split.
  - intros np_sqrt w hist Hvol class.
    assert (Hc : class = classify (Fin v)).
    { unfold class. cbn [risk_classification _compute_risk_metrics].
      rewrite Hvol. reflexivity. }
    rewrite Hc.
    destruct (classify_cases v)
      as [(H15 & _ & ->)|[(H15 & H25 & _ & _ & ->)|(H25 & _ & _ & ->)]].
    + repeat split; try discriminate; auto.
      * intros [Hge _]. exfalso. exact (Qlt_not_le _ _ H15 Hge).
      * intros Hge. exfalso. apply (Qlt_not_le _ _ H15).
        apply Qle_trans with (y := 25%Q); [discriminate|exact Hge].
    + repeat split; try discriminate; auto.
      * intros Hlt. exfalso. exact (Qlt_not_le _ _ Hlt H15).
      * intros Hge. exfalso. exact (Qlt_not_le _ _ H25 Hge).
    + repeat split; try discriminate; auto.
      * intros Hlt. exfalso. apply (Qlt_not_le _ _ Hlt).
        apply Qle_trans with (y := 25%Q); [discriminate|exact H25].
      * intros [_ Hlt]. exfalso. exact (Qlt_not_le _ _ Hlt H25).
  - intros rt th rb Hrt.
    destruct (interpret_volatility_by_band (Fin v)) as [number Hi].
    specialize (Hi rt th rb Hrt).
    split; [|split; [|split; [|apply volatility_phrase_by_band]]].
    + intros H15. exists number. rewrite Hi.
      destruct (classify_cases v)
        as [(_ & _ & ->)|[(H & _)|(H & _)]]; [reflexivity| |].
      * exfalso. exact (Qlt_not_le _ _ H15 H).
      * exfalso. apply (Qlt_not_le _ _ H15).
        apply Qle_trans with (y := 25%Q); [discriminate|exact H].
    + intros H15 H25. exists number. rewrite Hi.
      destruct (classify_cases v)
        as [(H & _)|[(_ & _ & _ & _ & ->)|(H & _)]]; [|reflexivity|].
      * exfalso. exact (Qlt_not_le _ _ H H15).
      * exfalso. exact (Qlt_not_le _ _ H25 H).
    + intros H25. exists number. rewrite Hi.
      destruct (classify_cases v)
        as [(H & _)|[(_ & H & _)|(_ & _ & _ & ->)]]; [| |reflexivity].
      * exfalso. apply (Qlt_not_le _ _ H).
        apply Qle_trans with (y := 25%Q); [discriminate|exact H25].
      * exfalso. exact (Qlt_not_le _ _ H H25).
Qed.

Lemma classification_bands_at_15_and_25_witness :
  risk_classification (_compute_risk_metrics sqrt_micro sample_world edge_days) = "Low"
  /\ exists number : string,
      _interpret_volatility (mkEngine "Medium" "Long-term (>1yr)" "Risk-averse")
        (Fin (14972835002400 # 1000000000000))
      = Ok (number +:+ "% volatility indicates low-risk behavior suitable for core holdings").
Proof.
  destruct (classification_bands_at_15_and_25 (14972835002400 # 1000000000000))
    as [Hfield Hexplain].
  split.
  - apply (Hfield sqrt_micro sample_world edge_days).
    + vm_compute. reflexivity.
    + reflexivity.
  - destruct (Hexplain "Medium" "Long-term (>1yr)" "Risk-averse") as (Hlow & _).
    + simpl. auto.
    + apply Hlow. reflexivity.
Defined.

(** Two vectors that differ only in risk tolerance, drawdown of -12: one and
    the same sentence. *)
Lemma drawdown_sentence_same_across_tolerance :
  let low := mkEngine "Low" "Long-term (>1yr)" "Risk-averse" in
  let high := mkEngine "High" "Long-term (>1yr)" "Risk-averse" in
  interpret_risk_metric low "drawdown" (Fin (-12))
  = Ok "-12.0% maximum drawdown represents notable capital risk requiring consideration"
  /\ interpret_risk_metric high "drawdown" (Fin (-12))
     = interpret_risk_metric low "drawdown" (Fin (-12)).
Proof.
  split; reflexivity.
Qed.

(** C3, as the code has it.  For two vectors that differ only in risk
    tolerance, the volatility explainer gives two different sentences for
    every value; the drawdown and the beta explainers read the risk behavior
    only, and give the same sentence under both vectors. *)
Theorem explainer_distinct_for_volatility_only
    (rt1 rt2 th rb : string) (value : pyfloat) :
  In rt1 tolerances -> In rt2 tolerances -> rt1 <> rt2 ->
  (exists s1 s2 : string,
      interpret_risk_metric (mkEngine rt1 th rb) "volatility" value = Ok s1
      /\ interpret_risk_metric (mkEngine rt2 th rb) "volatility" value = Ok s2
      /\ s1 <> s2)
  /\ interpret_risk_metric (mkEngine rt1 th rb) "drawdown" value
     = interpret_risk_metric (mkEngine rt2 th rb) "drawdown" value
  /\ interpret_risk_metric (mkEngine rt1 th rb) "beta" value
     = interpret_risk_metric (mkEngine rt2 th rb) "beta" value.
Proof.
  intros H1 H2 Hne. split; [|split; reflexivity].
  destruct (interpret_volatility_by_band value) as [number Hi].
  exists (number +:+ volatility_phrase rt1 (classify value)),
         (number +:+ volatility_phrase rt2 (classify value)).
  change (interpret_risk_metric (mkEngine rt1 th rb) "volatility" value)
    with (_interpret_volatility (mkEngine rt1 th rb) value).
  change (interpret_risk_metric (mkEngine rt2 th rb) "volatility" value)
    with (_interpret_volatility (mkEngine rt2 th rb) value).
  rewrite !Hi by assumption.
  repeat split.
  intros Heq. apply append_inv_head in Heq.
  exact (volatility_phrase_by_tolerance rt1 rt2 _ H1 H2 Hne (classify_band value) Heq).
Qed.

Lemma explainer_distinct_for_volatility_only_witness :
  exists s1 s2 : string,
    interpret_risk_metric (mkEngine "Low" "Long-term (>1yr)" "Risk-averse")
      "volatility" (Fin 22) = Ok s1
    /\ interpret_risk_metric (mkEngine "High" "Long-term (>1yr)" "Risk-averse")
         "volatility" (Fin 22) = Ok s2
    /\ s1 <> s2.
Proof.
  refine (proj1 (explainer_distinct_for_volatility_only
                   "Low" "High" "Long-term (>1yr)" "Risk-averse" (Fin 22) _ _ _)).
  - simpl. auto.
  - simpl. auto.
  - discriminate.
Defined.

(** ** Substrings and joined lines *)

Lemma prefix_app (n b : string) : String.prefix n (n +:+ b) = true.
Proof.
  induction n as [|c n IH]; simpl.
  - destruct b; reflexivity.
  - destruct (Ascii.ascii_dec c c) as [_|Hc]; [exact IH|contradiction].
Qed.

Lemma prefix_app_r (n s b : string) :
  String.prefix n s = true -> String.prefix n (s +:+ b) = true.
Proof.
  revert s. induction n as [|c n IH]; intros s H.
  - destruct (s +:+ b); reflexivity.
  - destruct s as [|c' s]; simpl in *; [discriminate|].
    destruct (Ascii.ascii_dec c c'); [auto|discriminate].
Qed.

Lemma contains_prefix (n s : string) :
  String.prefix n s = true -> contains n s = true.
Proof.
  intros H. destruct s; cbn [contains]; rewrite H; reflexivity.
Qed.

Lemma contains_app_l (n a s : string) :
  contains n s = true -> contains n (a +:+ s) = true.
Proof.
  intros H. induction a as [|c a IH].
  - exact H.
  - change (String c a +:+ s) with (String c (a +:+ s)). cbn [contains].
    rewrite IH. apply orb_true_r.
Qed.

Lemma contains_app_r (n s b : string) :
  contains n s = true -> contains n (s +:+ b) = true.
Proof.
  induction s as [|c s IH]; cbn [contains]; intros H.
  - rewrite orb_false_r in H. apply contains_prefix.
    apply (prefix_app_r n EmptyString b H).
  - change (String c s +:+ b) with (String c (s +:+ b)). cbn [contains].
    apply orb_true_iff in H as [H|H].
    + pose proof (prefix_app_r n (String c s) b H) as E.
      change (String c s +:+ b) with (String c (s +:+ b)) in E.
      rewrite E. reflexivity.
    + rewrite (IH H). apply orb_true_r.
Qed.

Lemma contains_self (n : string) : contains n n = true.
Proof.
  apply contains_prefix.
  induction n as [|c n IH]; simpl; [reflexivity|].
  destruct (Ascii.ascii_dec c c); [exact IH|contradiction].
Qed.

(** A part of a joined text is a substring of it. *)
Lemma contains_join (sep x : string) (parts : list string) :
  In x parts -> contains x (join sep parts) = true.
Proof.
  induction parts as [|p ps IH]; intros Hin; [destruct Hin|].
  destruct Hin as [->|Hin].
  - destruct ps as [|q ps]; simpl join.
    + apply contains_self.
    + apply contains_app_r, contains_self.
  - destruct ps as [|q ps]; [destruct Hin|].
    change (join sep (p :: q :: ps)) with (p +:+ sep +:+ join sep (q :: ps)).
    apply contains_app_l, contains_app_l, IH, Hin.
Qed.

Lemma join_nonempty (sep p : string) (ps : list string) :
  p <> EmptyString -> join sep (p :: ps) <> EmptyString.
Proof.
  intros Hp. destruct ps as [|q ps]; simpl join; [exact Hp|].
  destruct p; [contradiction|discriminate].
Qed.

Lemma extract_In (markers lines : list string) (line : string) :
  In line lines ->
  forallb (fun m => contains m line) markers = true ->
  In (bullet +:+ " " +:+ strip line) (extract markers lines).
Proof.
  intros Hin Hm. unfold extract.
  apply (in_map (fun l => bullet +:+ " " +:+ strip l)).
  apply filter_In. split; assumption.
Qed.

(** ** The tiered generator *)

Lemma try_ollama_rejected (w : World) (prompt : string) :
  ollama_unavailable w \/ ollama_below_threshold w prompt ->
  try_ollama w prompt = None.
Proof.
  unfold try_ollama, check_ollama_running, ollama_unavailable.
  intros [[H|H]|H].
  - rewrite H. reflexivity.
  - rewrite H. reflexivity.
  - destruct (ollama_tags w) as [[|first models]|]; try reflexivity.
    replace (0 <? length (first :: models))%nat with true by reflexivity.
    cbv beta iota.
    match goal with
    | |- context [ollama_invoke w ?m prompt] =>
        destruct (ollama_invoke w m prompt) as [response|] eqn:E
    end; [|reflexivity].
    apply H in E.
    rewrite (proj2 (Nat.ltb_ge _ _) E). reflexivity.
Qed.

Lemma try_huggingface_rejected (w : World) (prompt : string) :
  huggingface_below_threshold w prompt -> try_huggingface w prompt = None.
Proof.
  unfold try_huggingface. intros H.
  destruct (hf_generate w prompt) as [text|] eqn:E; [|reflexivity].
  apply H in E. cbv zeta.
  rewrite (proj2 (Nat.ltb_ge _ _) E). reflexivity.
Qed.

(** When the first tier is unavailable or below its threshold, and the
    second tier fails or is below its own, the deterministic fallback is
    returned; it is never the empty string; and every extracted line is a
    part of it. *)
Lemma fallback_when_tiers_fail (w : World) (prompt : string) :
  ollama_unavailable w \/ ollama_below_threshold w prompt ->
  huggingface_below_threshold w prompt ->
  query_llm_with_dss_prompt w prompt = generate_structured_fallback prompt.
Proof.
  intros H1 H2. unfold query_llm_with_dss_prompt.
  rewrite (try_ollama_rejected w prompt H1).
  rewrite (try_huggingface_rejected w prompt H2). reflexivity.
Qed.

Lemma fallback_nonempty (prompt : string) :
  generate_structured_fallback prompt <> EmptyString.
Proof.
  unfold generate_structured_fallback, fallback_parts.
  apply join_nonempty. discriminate.
Qed.

Lemma fallback_contains_fact (prompt x : string) :
  In x (extracted_facts prompt) ->
  contains x (generate_structured_fallback prompt) = true.
Proof.
  intros Hx. unfold generate_structured_fallback. apply contains_join.
  unfold fallback_parts. apply in_or_app. right.
  apply in_or_app. left. exact Hx.
Qed.

(** ** The pipeline *)

Lemma guidance_defined (self : PreferenceEngine) :
  In (risk_tolerance self) tolerances ->
  In (time_horizon self) horizons ->
  In (risk_behavior self) behaviors ->
  exists guidance, get_prompt_guidance self = Ok guidance.
Proof.
  destruct self as [rt th rb]. unfold tolerances, horizons, behaviors. simpl.
  intros [<-|[<-|[<-|[]]]] [<-|[<-|[]]] [<-|[<-|[]]];
    eexists; vm_compute; reflexivity.
Qed.

Lemma retrieve_rules_empty (w : World) (query_text ticker : string) :
  no_rules_found w query_text ticker ->
  retrieve_rules w query_text ticker = (EmptyString, []).
Proof.
  unfold no_rules_found, retrieve_rules. intros [H|H]; rewrite H; reflexivity.
Qed.

Lemma rules_step_empty (w : World) (query_text ticker : string) (use_rules : bool) :
  chroma_exists w = false \/ no_rules_found w query_text ticker ->
  rules_step w query_text ticker use_rules = (EmptyString, []).
Proof.
  unfold rules_step. intros [H|H].
  - rewrite H, andb_false_r. reflexivity.
  - rewrite (retrieve_rules_empty w query_text ticker H).
    destruct (use_rules && chroma_exists w); reflexivity.
Qed.

(** C8.  When the search finds nothing, [retrieve_rules] returns the empty
    text and no source.  When the index directory is absent or the search
    finds nothing, the pipeline does what it does with rules switched off;
    and with a stock summary at hand and preferences the engine knows, it
    returns a response, no source and the summary. *)
Theorem no_rules_no_failure (np_sqrt : Q -> Q) (w : World)
    (query_text ticker : string) (preferences : gmap string string) :
  (no_rules_found w query_text ticker ->
   retrieve_rules w query_text ticker = (EmptyString, []))
  /\ (chroma_exists w = false \/ no_rules_found w query_text ticker ->
      forall use_rules : bool,
        query_financial_dss np_sqrt w query_text ticker preferences use_rules
        = query_financial_dss np_sqrt w query_text ticker preferences false
        /\ forall stock_summary : Summary,
            get_stock_summary np_sqrt w ticker "1y" = Some stock_summary ->
            valid_preferences preferences ->
            exists response_text : string,
              query_financial_dss np_sqrt w query_text ticker preferences use_rules
              = Ok (response_text, [], Some stock_summary)).
Proof.
  split; [apply retrieve_rules_empty|].
  intros Habsent use_rules.
  assert (Hstep : rules_step w query_text ticker use_rules
                  = rules_step w query_text ticker false).
  { rewrite (rules_step_empty w query_text ticker use_rules Habsent).
    reflexivity. }
  split.
  - unfold query_financial_dss. rewrite Hstep. reflexivity.
  - intros stock_summary Hs (Hrt & Hth & Hrb).
    destruct (guidance_defined _ Hrt Hth Hrb) as [guidance Hg].
    unfold query_financial_dss.
    rewrite Hs, (rules_step_empty w query_text ticker use_rules Habsent), Hg.
    eexists. reflexivity.
Qed.

Lemma no_rules_no_failure_witness :
  retrieve_rules terse_world "Is this stock too risky?" "AAPL" = (EmptyString, [])
  /\ exists response_text stock_summary,
      query_financial_dss sqrt_milli terse_world "Is this stock too risky?" "AAPL" ∅ true
      = Ok (response_text, [], Some stock_summary).
Proof.
  destruct (no_rules_no_failure sqrt_milli terse_world
              "Is this stock too risky?" "AAPL" ∅) as [H1 H2].
  assert (Hnone : no_rules_found terse_world "Is this stock too risky?" "AAPL").
  { right. reflexivity. }
  split; [exact (H1 Hnone)|].
  summary_of sqrt_milli terse_world "AAPL" "1y" stock_summary Hs.
  destruct (H2 (or_intror Hnone) true) as [_ H3].
  destruct (H3 stock_summary Hs) as [response_text Hr].
  - repeat split; vm_compute; auto.
  - exists response_text, stock_summary. exact Hr.
Defined.

(** C9.  When fetching the history or the company information raises, or
    the history is empty, the entry point returns the message that names the
    ticker, no source and no summary. *)
Theorem unavailable_data_is_reported (np_sqrt : Q -> Q) (w : World)
    (query_text ticker : string) (preferences : gmap string string) (use_rules : bool) :
  yf_history w ticker "1y" = None
  \/ yf_history w ticker "1y" = Some []
  \/ yf_info w ticker = None ->
  get_stock_summary np_sqrt w ticker "1y" = None
  /\ query_financial_dss np_sqrt w query_text ticker preferences use_rules
     = Ok ("Unable to fetch data for ticker " +:+ ticker
             +:+ ". Please verify the ticker symbol.", [], None).
Proof.
  intros H.
  assert (Hs : get_stock_summary np_sqrt w ticker "1y" = None).
  { unfold get_stock_summary.
    destruct H as [H|[H|H]]; rewrite H; try reflexivity.
    - destruct (yf_info w ticker); reflexivity.
    - destruct (yf_history w ticker "1y"); reflexivity. }
  split; [exact Hs|].
  unfold query_financial_dss. rewrite Hs. reflexivity.
Qed.

Lemma unavailable_data_is_reported_witness :
  query_financial_dss sqrt_milli sample_world "Is this stock too risky?" "ZZZZ" ∅ true
  = Ok ("Unable to fetch data for ticker ZZZZ. Please verify the ticker symbol.", [], None).
Proof.
  refine (proj2 (unavailable_data_is_reported sqrt_milli sample_world
                   "Is this stock too risky?" "ZZZZ" ∅ true _)).
  right; left. reflexivity.
Defined.

Lemma fill_lookup_same (key value : string) (preferences : gmap string string) :
  default value (fill key value preferences !! key)
  = default value (preferences !! key).
Proof.
  unfold fill. destruct (preferences !! key) as [v|] eqn:E.
  - rewrite E. reflexivity.
  - rewrite lookup_insert_eq. reflexivity.
Qed.

Lemma fill_lookup_other (key value other : string) (preferences : gmap string string) :
  key <> other -> fill key value preferences !! other = preferences !! other.
Proof.
  intros Hne. unfold fill. destruct (preferences !! key); [reflexivity|].
  apply lookup_insert_ne. exact Hne.
Qed.

Lemma with_defaults_lookup (preferences : gmap string string) :
  default "Medium" (with_defaults preferences !! "risk_tolerance")
  = default "Medium" (preferences !! "risk_tolerance")
  /\ default "Long-term (>1yr)" (with_defaults preferences !! "time_horizon")
     = default "Long-term (>1yr)" (preferences !! "time_horizon")
  /\ default "Risk-averse" (with_defaults preferences !! "risk_behavior")
     = default "Risk-averse" (preferences !! "risk_behavior").
Proof.
  unfold with_defaults. repeat split.
  - rewrite !fill_lookup_other by discriminate. apply fill_lookup_same.
  - rewrite fill_lookup_other by discriminate.
    rewrite fill_lookup_same. rewrite fill_lookup_other by discriminate.
    reflexivity.
  - rewrite fill_lookup_same. rewrite !fill_lookup_other by discriminate.
    reflexivity.
Qed.

(** C10.  With a stock summary at hand, the entry point builds the engine
    from the dictionary it is given, each axis being the value under its key
    or, when the key is missing, the default: Medium, Long-term (>1yr),
    Risk-averse.  The guidance of that engine is what goes into the prompt
    the generator is asked, and a key error of that engine is what the entry
    point raises.  From the empty dictionary the engine is the one of the
    three defaults, whose guidance is defined and names them; and a
    dictionary with missing keys is answered as the one with the defaults
    written in. *)
Theorem missing_preferences_get_defaults (np_sqrt : Q -> Q) (w : World)
    (query_text ticker : string) (preferences : gmap string string) (use_rules : bool)
    (stock_summary : Summary) :
  get_stock_summary np_sqrt w ticker "1y" = Some stock_summary ->
  let axis (key fallback : string) : string :=
    match preferences !! key with
    | Some value => value
    | None => fallback
    end in
  let engine :=
    mkEngine (axis "risk_tolerance" "Medium")
             (axis "time_horizon" "Long-term (>1yr)")
             (axis "risk_behavior" "Risk-averse") in
  let rules := rules_step w query_text ticker use_rules in
  let financial_context := format_for_llm (Some stock_summary) preferences in
  (forall guidance : string,
      get_prompt_guidance engine = Ok guidance ->
      query_financial_dss np_sqrt w query_text ticker preferences use_rules
      = Ok (query_llm_with_dss_prompt w
              (build_dss_prompt query_text financial_context (fst rules) guidance),
            remove_dups (snd rules), Some stock_summary))
  /\ (forall e : exn,
        get_prompt_guidance engine = Raise e ->
        query_financial_dss np_sqrt w query_text ticker preferences use_rules = Raise e)
  /\ (preferences = ∅ ->
      engine = mkEngine "Medium" "Long-term (>1yr)" "Risk-averse"
      /\ exists guidance : string,
          get_prompt_guidance engine = Ok guidance
          /\ contains "- The user has medium risk tolerance with risk-averse behavior"
               guidance = true
          /\ contains "- Investment horizon: long-term (>1yr)" guidance = true)
  /\ query_financial_dss np_sqrt w query_text ticker preferences use_rules
     = query_financial_dss np_sqrt w query_text ticker (with_defaults preferences) use_rules.
Proof.
  intros Hs axis engine rules financial_context.
  assert (He : make_pref_engine preferences = engine).
  { unfold make_pref_engine, engine, axis.
    destruct (preferences !! "risk_tolerance"), (preferences !! "time_horizon"),
      (preferences !! "risk_behavior"); reflexivity. }
  assert (Hq : query_financial_dss np_sqrt w query_text ticker preferences use_rules
               = let* guidance := get_prompt_guidance engine in
                 Ok (query_llm_with_dss_prompt w
                       (build_dss_prompt query_text financial_context (fst rules) guidance),
                     remove_dups (snd rules), Some stock_summary)).
  { unfold query_financial_dss. rewrite Hs, He. fold rules.
    destruct rules as [rules_context sources]. reflexivity. }
  split; [|split; [|split]].
  - intros guidance Hg. rewrite Hq, Hg. reflexivity.
  - intros e Hg. rewrite Hq, Hg. reflexivity.
  - intros ->. unfold engine, axis. rewrite !lookup_empty.
    clear. split; [reflexivity|].
    exists (guidance_text (mkEngine "Medium" "Long-term (>1yr)" "Risk-averse")).
    repeat split; vm_compute; reflexivity.
  - destruct (with_defaults_lookup preferences) as (Hrt & Hth & Hrb).
    unfold query_financial_dss. rewrite Hs.
    assert (Hd : make_pref_engine (with_defaults preferences)
                 = make_pref_engine preferences).
    { unfold make_pref_engine. rewrite Hrt, Hth, Hrb. reflexivity. }
    assert (Hf : format_for_llm (Some stock_summary) (with_defaults preferences)
                 = format_for_llm (Some stock_summary) preferences).
    { unfold format_for_llm, sections_of, risk_section. rewrite Hrt. reflexivity. }
    rewrite Hd, Hf. reflexivity.
Qed.

Lemma missing_preferences_get_defaults_witness :
  exists (s : Summary) (response : string),
    get_stock_summary sqrt_milli echo_world "AAPL" "1y" = Some s
    /\ query_financial_dss sqrt_milli echo_world "Is this stock too risky?" "AAPL"
         {[ "risk_tolerance" := "High" ]} false
       = Ok (response, [], Some s)
    /\ contains "- The user has high risk tolerance with risk-averse behavior"
         response = true
    /\ contains "- Investment horizon: long-term (>1yr)" response = true.
Proof.
  summary_of sqrt_milli echo_world "AAPL" "1y" s Hs.
  destruct (missing_preferences_get_defaults sqrt_milli echo_world
              "Is this stock too risky?" "AAPL" {[ "risk_tolerance" := "High" ]}
              false s Hs) as (T & _).
  specialize (T (guidance_text (mkEngine "High" "Long-term (>1yr)" "Risk-averse"))).
  exists s. eexists. split; [exact Hs|].
  split; [apply T; vm_compute; reflexivity|].
  split; vm_compute; reflexivity.
Defined.

(** ** Trailing returns *)

Lemma length_closes (hist : list Bar) : length (values (closes hist)) = length hist.
Proof.
  unfold values, closes. rewrite !length_map. reflexivity.
Qed.










(** ** Volatility *)

Lemma length_pct_change (s : Series) : length (pct_change s) = (length s - 1)%nat.
Proof.
  induction s as [|[d0 p0] [|[d1 p1] t] IH]; try reflexivity.
  change (pct_change ((d0, p0) :: (d1, p1) :: t))
    with ((d1, Qred (p1 / p0 - 1)) :: pct_change ((d1, p1) :: t)).
  cbn [length] in *. rewrite IH. lia.
Qed.





(** The sums the model keeps in lowest terms are the plain sums. *)
Lemma Qsum_total (l : list Q) : (Qsum l == total l)%Q.
Proof.
  induction l as [|x t IH]; [reflexivity|].
  unfold Qsum, total in *. cbn [fold_right]. rewrite Qred_correct, IH. reflexivity.
Qed.




Lemma combine_self (l : list Q) : combine l l = map (fun x => (x, x)) l.
Proof.
  induction l as [|x t IH]; [reflexivity|]. cbn [combine map]. rewrite IH. reflexivity.
Qed.





(** ** Beta *)

Lemma lookup_label_In (d : Z) (s : Series) :
  In d (index s) <-> exists v, lookup_label d s = Some v.
Proof.
  induction s as [|[d' v'] t IH]; simpl.
  - split; [intros []|intros [v H]; discriminate].
  - destruct (Z.eqb_spec d d') as [->|Hne].
    + split; [intros _; eauto|auto].
    + rewrite <- IH. split; [intros [H|H]; [congruence|exact H]|auto].
Qed.

Lemma reindex_index_In (s : Series) (idx : list Z) (d : Z) :
  In d (index (reindex_dropna s idx)) <-> In d idx /\ In d (index s).
Proof.
  induction idx as [|d' t IH]; simpl.
  - tauto.
  - destruct (lookup_label d' s) as [v|] eqn:E; simpl; rewrite IH.
    + assert (In d' (index s)) by (apply lookup_label_In; eauto).
      split; [intros [<-|[H1 H2]]; auto|tauto].
    + split; [tauto|].
      intros [[<-|H1] H2]; [|tauto].
      apply lookup_label_In in H2 as [v H2]. congruence.
Qed.

Lemma reindex_index_all (s : Series) (idx : list Z) :
  (forall d, In d idx -> In d (index s)) -> index (reindex_dropna s idx) = idx.
Proof.
  induction idx as [|d t IH]; simpl; intros H; [reflexivity|].
  destruct (proj1 (lookup_label_In d s) (H d (or_introl eq_refl))) as [v ->].
  simpl. rewrite IH; auto.
Qed.

(** The two aligned series carry the same dates. *)
Lemma aligned_same_index (returns market_returns : Series) :
  index (aligned_market returns market_returns)
  = index (aligned_returns returns market_returns).
Proof.
  unfold aligned_market. apply reindex_index_all.
  intros d H. unfold aligned_returns in H.
  apply reindex_index_In in H. tauto.
Qed.

Lemma aligned_same_length (returns market_returns : Series) :
  length (values (aligned_market returns market_returns))
  = length (values (aligned_returns returns market_returns)).
Proof.
  unfold values. rewrite !length_map.
  rewrite <- (length_map fst (aligned_market _ _)),
          <- (length_map fst (aligned_returns _ _)).
  change (map fst) with index. rewrite aligned_same_index. reflexivity.
Qed.

(** The variance of a single observation is zero. *)
Lemma np_var_singleton (x : Q) : exists q, np_var [x] = Fin q /\ (q == 0)%Q.
Proof.
  eexists. split; [reflexivity|].
  unfold codev, Qmean, Qsum, Qlen. simpl.
  rewrite !Qred_correct. field.
Qed.

Lemma np_var_positive (l : list Q) :
  fgt (np_var l) (Fin 0) = true ->
  (2 <= length l)%nat /\ exists v, np_var l = Fin v /\ (0 < v)%Q.
Proof.
  destruct l as [|x [|y t]]; intros H.
  - discriminate H.
  - exfalso. destruct (np_var_singleton x) as (q & Hq & Hz).
    rewrite Hq in H. unfold fgt, flt in H. apply Qlt_bool_iff in H.
    rewrite Hz in H. exact (Qlt_irrefl 0 H).
  - split; [simpl; lia|]. eexists. split; [reflexivity|].
    unfold fgt, flt in H. apply Qlt_bool_iff in H. exact H.
Qed.

Lemma np_cov_defined (a b : list Q) :
  (2 <= length a)%nat -> np_cov a b = Fin (codev a b / (Qlen a - 1)).
Proof.
  destruct a as [|x [|y t]]; simpl; intros H; try lia. reflexivity.
Qed.

(** A stock with two rows against the one-year benchmark, and a stock with
    five rows against a flat benchmark: the benchmark is there, the variance
    of its aligned returns is zero, and the beta field is 1.0. *)
Lemma beta_is_one_on_zero_variance :
  (let w := world_with second_day (Some spy_year) in
   let returns := pct_change (closes second_day) in
   let market_returns := pct_change (closes spy_year) in
   yf_history w "SPY" "1y" = Some spy_year
   /\ feq (np_var (values (aligned_market returns market_returns))) (Fin 0)
   /\ beta (_compute_risk_metrics sqrt_milli w second_day) = Some (Fin (100 # 100)))
  /\ (let w := world_with choppy_week (Some flat_week) in
      let returns := pct_change (closes choppy_week) in
      let market_returns := pct_change (closes flat_week) in
      yf_history w "SPY" "1y" = Some flat_week
      /\ feq (np_var (values (aligned_market returns market_returns))) (Fin 0)
      /\ beta (_compute_risk_metrics sqrt_milli w choppy_week) = Some (Fin (100 # 100))).
Proof.
  vm_compute. repeat split; reflexivity.
Qed.

Lemma total_zeros (l : list Q) : Forall (fun r => (r == 0)%Q) l -> (total l == 0)%Q.
Proof.
  intros H. induction H as [|x t Hx _ IH]; [reflexivity|].
  cbv beta in Hx. unfold total in *. cbn [fold_right]. rewrite Hx, IH. reflexivity.
Qed.

(** A benchmark that does not move has no positive variance. *)
Lemma np_var_flat (l : list Q) :
  Forall (fun r => (r == 0)%Q) l -> fgt (np_var l) (Fin 0) = false.
Proof.
  intros H. destruct l as [|x t] eqn:E; [reflexivity|]. rewrite <- E in *.
  assert (Hv : np_var l = Fin (codev l l / Qlen l)) by (rewrite E; reflexivity).
  rewrite Hv. unfold fgt, flt. apply Qlt_bool_false_iff.
  assert (Hc : (codev l l == 0)%Q).
  { unfold codev. rewrite combine_self, map_map, Qsum_total. cbn [fst snd].
    apply total_zeros.
    assert (Hm : (Qmean l == 0)%Q).
    { unfold Qmean. rewrite Qsum_total, (total_zeros l H).
      unfold Qdiv. apply Qmult_0_l. }
    clear E Hv. revert Hm. generalize (Qmean l) as m. intros m Hm.
    induction H as [|y u Hy _ IH]; cbn [map]; constructor.
    - cbv beta in Hy. rewrite Hy, Hm. reflexivity.
    - exact IH. }
  rewrite Hc. unfold Qdiv. rewrite Qmult_0_l. apply Qle_refl.
Qed.

(** Fewer than two observations have no positive variance either. *)
Lemma np_var_short (l : list Q) :
  (length l < 2)%nat -> fgt (np_var l) (Fin 0) = false.
Proof.
  destruct l as [|x [|y t]]; cbn [length]; intros H; [reflexivity| |lia].
  destruct (np_var_singleton x) as (q & -> & Hz).
  unfold fgt, flt. apply Qlt_bool_false_iff. rewrite Hz. apply Qle_refl.
Qed.

Lemma beta_default (a b : list Q) :
  fgt (np_var b) (Fin 0) = false ->
  beta_field (Some (raw_beta a b)) = Some (Fin (100 # 100)).
Proof.
  intros H. unfold raw_beta. rewrite H. reflexivity.
Qed.

(** C2, as the code has it.  The beta field is empty when the benchmark
    history cannot be fetched.  Otherwise the returns of the stock and of the
    benchmark are aligned on the dates both have, and the field is read off
    the two aligned series alone: it is 1.0, not empty, when they have fewer
    than two dates, and when the benchmark does not move on them, the
    variance of the aligned benchmark returns being then zero or undefined;
    and any history and benchmark with the same two aligned series have the
    same field. *)
Theorem beta_over_aligned_dates (np_sqrt : Q -> Q) (w : World) (hist : list Bar) :
  positive_closes hist ->
  let returns := pct_change (closes hist) in
  let field := beta (_compute_risk_metrics np_sqrt w hist) in
  (yf_history w "SPY" "1y" = None -> field = None)
  /\ forall spy : list Bar,
      yf_history w "SPY" "1y" = Some spy ->
      positive_closes spy ->
      let market_returns := pct_change (closes spy) in
      let stock_side := aligned_returns returns market_returns in
      let market_side := aligned_market returns market_returns in
      index stock_side = index market_side
      /\ (forall d : Z,
             In d (index stock_side)
             <-> In d (index returns) /\ In d (index market_returns))
      /\ ((length market_side < 2)%nat -> field = Some (Fin (100 # 100)))
      /\ (Forall (fun r => (r == 0)%Q) (values market_side) ->
          field = Some (Fin (100 # 100)))
      /\ (forall (w' : World) (hist' spy' : list Bar),
             yf_history w' "SPY" "1y" = Some spy' ->
             aligned_returns (pct_change (closes hist')) (pct_change (closes spy'))
             = stock_side ->
             aligned_market (pct_change (closes hist')) (pct_change (closes spy'))
             = market_side ->
             beta (_compute_risk_metrics np_sqrt w' hist') = field).
Proof.
  intros _ returns field.
  assert (Hfield : field = beta_field (beta_of w returns)) by reflexivity.
  split.
  - intros Hspy. rewrite Hfield. unfold beta_of. rewrite Hspy. reflexivity.
  - intros spy Hspy _ market_returns stock_side market_side.
    assert (Hbeta : field
                    = beta_field (Some (raw_beta (values stock_side) (values market_side)))).
    { rewrite Hfield. unfold beta_of. rewrite Hspy. reflexivity. }
    split; [symmetry; apply aligned_same_index|].
    split.
    { intros d. unfold stock_side, aligned_returns.
      rewrite reindex_index_In. tauto. }
    split; [|split].
    + intros Hlen. rewrite Hbeta. apply beta_default, np_var_short.
      unfold values. rewrite length_map. exact Hlen.
    + intros Hflat. rewrite Hbeta. apply beta_default, np_var_flat. exact Hflat.
    + intros w' hist' spy' Hspy' Hs Hm. rewrite Hbeta.
      cbn [beta _compute_risk_metrics]. unfold beta_of. rewrite Hspy', Hs, Hm.
      reflexivity.
Qed.

Lemma beta_over_aligned_dates_witness :
  beta (_compute_risk_metrics sqrt_milli (world_with market_week (Some flat_week))
          market_week)
  = Some (Fin (100 # 100))
  /\ exists b : Q,
      beta (_compute_risk_metrics sqrt_milli (world_with choppy_week (Some market_week))
              choppy_week)
      = Some (Fin b)
      /\ (1 < b)%Q.
Proof.
  split.
  - destruct (beta_over_aligned_dates sqrt_milli
                (world_with market_week (Some flat_week)) market_week) as [_ H].
    { unfold positive_closes. vm_compute. repeat constructor. }
    destruct (H flat_week eq_refl) as (_ & _ & _ & Hflat & _).
    { unfold positive_closes. vm_compute. repeat constructor. }
    apply Hflat. vm_compute. repeat constructor.
  - eexists. split; [vm_compute; reflexivity|]. reflexivity.
Defined.

(** ** The lines of an assembled prompt *)

Lemma split_nl_nonempty (s : string) : split_nl s <> [].
Proof.
  induction s as [|c s IH]; simpl; [discriminate|].
  destruct (Ascii.eqb c (ascii_of_nat 10)); [discriminate|].
  destruct (split_nl s); discriminate.
Qed.

Lemma split_nl_shape (s : string) :
  split_nl s = hd EmptyString (split_nl s) :: tl (split_nl s).
Proof.
  pose proof (split_nl_nonempty s). destruct (split_nl s); [contradiction|reflexivity].
Qed.

(** A text in front that has no newline goes to the first line. *)
Lemma split_nl_prefix (m r : string) :
  no_newline m = true ->
  split_nl (m +:+ r) = (m +:+ hd EmptyString (split_nl r)) :: tl (split_nl r).
Proof.
  induction m as [|c m IH]; intros H.
  - apply split_nl_shape.
  - cbn [no_newline] in H. apply andb_true_iff in H as [Hc Hm].
    apply negb_true_iff in Hc.
    change (String c m +:+ r) with (String c (m +:+ r)).
    cbn [split_nl]. rewrite Hc, (IH Hm). reflexivity.
Qed.

Lemma split_nl_app_nl (a b : string) :
  split_nl (a +:+ nl +:+ b) = split_nl a ++ split_nl b.
Proof.
  induction a as [|c a IH].
  - reflexivity.
  - change (String c a +:+ nl +:+ b) with (String c (a +:+ nl +:+ b)).
    cbn [split_nl]. rewrite IH.
    destruct (Ascii.eqb c (ascii_of_nat 10)); [reflexivity|].
    rewrite (split_nl_shape a). reflexivity.
Qed.

(** The lines of a part are lines of the joined text. *)
Lemma split_nl_join (parts : list string) (x line : string) :
  In x parts -> In line (split_nl x) -> In line (split_nl (join nl parts)).
Proof.
  induction parts as [|p ps IH]; intros Hx Hl; [destruct Hx|].
  destruct ps as [|q ps].
  - destruct Hx as [->|[]]. exact Hl.
  - change (join nl (p :: q :: ps)) with (p +:+ nl +:+ join nl (q :: ps)).
    rewrite split_nl_app_nl. apply in_or_app.
    destruct Hx as [->|Hx]; [left; exact Hl|right; auto].
Qed.

(** So are the lines after the first of a part that is itself joined. *)
Lemma split_nl_join_tail (p : string) (ps : list string) (x line : string) :
  In x ps -> In line (split_nl x) -> In line (tl (split_nl (join nl (p :: ps)))).
Proof.
  intros Hx Hl. destruct ps as [|q ps]; [destruct Hx|].
  change (join nl (p :: q :: ps)) with (p +:+ nl +:+ join nl (q :: ps)).
  rewrite split_nl_app_nl, (split_nl_shape p). cbn [app tl].
  apply in_or_app. right. exact (split_nl_join _ _ _ Hx Hl).
Qed.

(** Every prompt the entry point assembles from a stock summary has a line
    with the volatility marker, and the fallback extracts it. *)
Lemma pipeline_prompt_has_volatility_line (s : Summary)
    (preferences : gmap string string) (query rules_context guidance : string) :
  let prompt :=
    build_dss_prompt query (format_for_llm (Some s) preferences) rules_context guidance in
  exists line : string,
    In line (split_nl prompt)
    /\ contains "Annualized Volatility:" line = true
    /\ In (bullet +:+ " " +:+ strip line) (extracted_facts prompt).
Proof.
  intros prompt.
  set (rest := str_float (volatility_annual (risk_metrics s)) +:+ "% ("
               +:+ risk_classification (risk_metrics s) +:+ " risk)").
  set (line := "  Annualized Volatility: " +:+ hd EmptyString (split_nl rest)).
  assert (Hm : contains "Annualized Volatility:" line = true).
  { unfold line. apply contains_app_r. reflexivity. }
  assert (Hline : In line (split_nl ("  Annualized Volatility: " +:+ rest))).
  { rewrite split_nl_prefix by reflexivity. left. reflexivity. }
  assert (Hfc : In line (tl (split_nl (format_for_llm (Some s) preferences)))).
  { unfold format_for_llm, sections_of, header_section.
    cbn [app]. eapply split_nl_join_tail; [|exact Hline].
    right. apply in_or_app. right. apply in_or_app. left.
    unfold risk_section. cbn [app In]. right; left. reflexivity. }
  assert (Hin : In line (split_nl prompt)).
  { unfold prompt, build_dss_prompt.
    eapply (split_nl_join _ ("        " +:+ format_for_llm (Some s) preferences)).
    - cbn [In]. do 5 right. left. reflexivity.
    - rewrite split_nl_prefix by reflexivity. right. exact Hfc. }
  exists line. split; [exact Hin|]. split; [exact Hm|].
  unfold extracted_facts. apply in_or_app. left.
  apply extract_In; [exact Hin|]. cbn [forallb]. rewrite Hm. reflexivity.
Qed.

(** C7.  For every prompt the entry point assembles, which it does from a
    stock summary only: when the first tier is unavailable or returns a text
    not above its threshold of 100 characters, and the second tier fails or
    returns a text not above its own of 50, the deterministic fallback is
    returned; the fallback is not the empty string; and it contains, as a
    bullet, a line of the prompt that has one of the markers of the financial
    facts.  The prompt always has such a line, so this holds in particular
    when the prompt contains the word Volatility. *)
Theorem fallback_returned_with_volatility_line (w : World) (s : Summary)
    (preferences : gmap string string) (query rules_context guidance : string) :
  let prompt :=
    build_dss_prompt query (format_for_llm (Some s) preferences) rules_context guidance in
  ollama_unavailable w \/ ollama_below_threshold w prompt ->
  huggingface_below_threshold w prompt ->
  query_llm_with_dss_prompt w prompt = generate_structured_fallback prompt
  /\ generate_structured_fallback prompt <> EmptyString
  /\ (contains "Volatility" prompt = true ->
      exists line : string,
        In line (split_nl prompt)
        /\ has_marker line
        /\ In (bullet +:+ " " +:+ strip line) (extracted_facts prompt)
        /\ contains (bullet +:+ " " +:+ strip line)
             (generate_structured_fallback prompt) = true).
Proof.
  intros prompt H1 H2.
  split; [exact (fallback_when_tiers_fail w prompt H1 H2)|].
  split; [apply fallback_nonempty|].
  intros _.
  destruct (pipeline_prompt_has_volatility_line s preferences query rules_context guidance)
    as (line & Hin & Hm & Hx).
  exists line. split; [exact Hin|]. split; [left; exact Hm|].
  split; [exact Hx|]. apply fallback_contains_fact. exact Hx.
Qed.

Lemma fallback_returned_with_volatility_line_witness :
  exists s : Summary,
    get_stock_summary sqrt_milli terse_world "AAPL" "1y" = Some s
    /\ let prompt :=
         build_dss_prompt "Is this stock too risky?" (format_for_llm (Some s) ∅)
           EmptyString (guidance_text (make_pref_engine ∅)) in
       query_llm_with_dss_prompt terse_world prompt
       = generate_structured_fallback prompt
       /\ contains (bullet +:+ " Annualized Volatility: ")
            (generate_structured_fallback prompt) = true.
Proof.
  summary_of sqrt_milli terse_world "AAPL" "1y" s Hs.
  exists s. split; [exact Hs|].
  destruct (fallback_returned_with_volatility_line terse_world s ∅
              "Is this stock too risky?" EmptyString
              (guidance_text (make_pref_engine ∅))) as (Hq & _ & _).
  - right. intros model response E. injection E as <-. vm_compute. lia.
  - intros text E. injection E as <-. vm_compute. lia.
  - cbv zeta. split; [exact Hq|]. vm_compute. reflexivity.
Defined.

(** * Further properties of the code *)

(** ** Rounding *)

(** Rounding stays between two integers that enclose the value. *)
Lemma round_half_even_between (a b : Z) (y : Q) :
  (inject_Z a <= y)%Q -> (y <= inject_Z b)%Q ->
  (a <= round_half_even y <= b)%Z.
Proof.
  intros Ha Hb. unfold round_half_even.
  pose proof (Qfloor_le y) as Hf.
  assert (Hfa : (a <= Qfloor y)%Z).
  { rewrite <- (Qfloor_Z a). apply Qfloor_resp_le. exact Ha. }
  assert (Hfb : (Qfloor y <= b)%Z).
  { rewrite <- (Qfloor_Z b). apply Qfloor_resp_le. exact Hb. }
  destruct (Qlt_bool (y - inject_Z (Qfloor y)) (1 # 2)) eqn:E; [lia|].
  apply Qlt_bool_false_iff in E.
  assert (Hlt : (Qfloor y < b)%Z).
  { rewrite Zlt_Qlt. lra. }
  destruct (Qlt_bool (1 # 2) (y - inject_Z (Qfloor y))); [lia|].
  destruct (Z.even (Qfloor y)); lia.
Qed.

(** The upper half below an even integer rounds up to it, the tie
    included. *)
Lemma round_half_even_up_to_even (n : Z) (y : Q) :
  Z.even n = true ->
  (inject_Z n - (1 # 2) <= y)%Q -> (y < inject_Z n)%Q ->
  round_half_even y = n.
Proof.
  intros Hn Hlo Hhi. unfold round_half_even.
  assert (Hf : Qfloor y = (n - 1)%Z).
  { pose proof (Qfloor_le y) as H1. pose proof (Qlt_floor y) as H2.
    assert ((Qfloor y < n)%Z) by (rewrite Zlt_Qlt; lra).
    assert ((n - 1 < Qfloor y + 1)%Z).
    { rewrite Zlt_Qlt. unfold Z.sub.
      rewrite !inject_Z_plus, ?inject_Z_opp in *.
      change (inject_Z 1) with 1%Q in *. lra. }
    lia. }
  rewrite Hf.
  assert (Hr : (1 # 2 <= y - inject_Z (n - 1))%Q).
  { unfold Z.sub. rewrite inject_Z_plus, inject_Z_opp.
    change (inject_Z 1) with 1%Q. lra. }
  rewrite (proj2 (Qlt_bool_false_iff _ _) Hr).
  destruct (Qlt_bool (1 # 2) (y - inject_Z (n - 1))); [lia|].
  replace (Z.even (n - 1)) with false; [lia|].
  rewrite Z.even_sub, Hn. reflexivity.
Qed.

Lemma round_q_between (a b : Z) (q : Q) (nd : nat) :
  (inject_Z a <= q * inject_Z (Zpos (scale10 nd)))%Q ->
  (q * inject_Z (Zpos (scale10 nd)) <= inject_Z b)%Q ->
  (a # scale10 nd <= round_q q nd)%Q /\ (round_q q nd <= b # scale10 nd)%Q.
Proof.
  intros Ha Hb. destruct (round_half_even_between a b _ Ha Hb) as [H1 H2].
  unfold round_q, Qle. cbn [Qnum Qden]. split; nia.
Qed.

(** ** Returns and drawdown *)

Lemma positive_closes_series (hist : list Bar) :
  positive_closes hist -> positive_series (closes hist).
Proof.
  unfold positive_closes, positive_series, closes. intros H.
  induction H; simpl; constructor; auto.
Qed.

(** The returns carry the dates of all rows but the first. *)
Lemma index_pct_change (s : Series) : index (pct_change s) = tl (index s).
Proof.
  induction s as [|[d0 p0] [|[d1 p1] t] IH]; try reflexivity.
  change (pct_change ((d0, p0) :: (d1, p1) :: t))
    with ((d1, Qred (p1 / p0 - 1)) :: pct_change ((d1, p1) :: t)).
  unfold index in *. cbn [map fst tl] in *. rewrite IH. reflexivity.
Qed.

(** With positive prices every return is above -100%. *)
Lemma pct_change_growth_positive (s : Series) :
  positive_series s ->
  Forall (fun r => (0 < 1 + r)%Q) (values (pct_change s)).
Proof.
  unfold positive_series, values.
  induction s as [|[d0 p0] [|[d1 p1] t] IH]; intros H; try constructor.
  - change (pct_change ((d0, p0) :: (d1, p1) :: t))
      with ((d1, Qred (p1 / p0 - 1)) :: pct_change ((d1, p1) :: t)).
    cbn [map snd].
    inversion H as [|? ? H0 Ht]; subst. inversion Ht as [|? ? H1 _]; subst.
    cbn [snd] in *. rewrite Qred_correct.
    assert (0 < p1 / p0)%Q.
    { apply Qlt_shift_div_l; [exact H0|]. lra. }
    lra.
  - change (pct_change ((d0, p0) :: (d1, p1) :: t))
      with ((d1, Qred (p1 / p0 - 1)) :: pct_change ((d1, p1) :: t)).
    cbn [map snd]. cbn [map snd] in IH. apply IH.
    inversion H; assumption.
Qed.

Lemma cumprod_from_positive (acc : Q) (l : list Q) :
  (0 < acc)%Q -> Forall (fun x => (0 < x)%Q) l ->
  Forall (fun x => (0 < x)%Q) (cumprod_from acc l).
Proof.
  intros Hacc H. revert acc Hacc.
  induction H as [|x t Hx _ IH]; intros acc Hacc; simpl; constructor.
  - rewrite Qred_correct. apply Qmult_lt_0_compat; assumption.
  - apply IH. rewrite Qred_correct. apply Qmult_lt_0_compat; assumption.
Qed.

Lemma Qmax_ge (a b : Q) : (a <= Qmax a b)%Q /\ (b <= Qmax a b)%Q.
Proof.
  unfold Qmax. destruct (Qle_bool a b) eqn:E.
  - apply Qle_bool_iff in E. split; [exact E|apply Qle_refl].
  - split; [apply Qle_refl|].
    destruct (Qlt_le_dec b a) as [H|H]; [apply Qlt_le_weak; exact H|].
    apply Qle_bool_iff in H. congruence.
Qed.

Lemma expanding_max_from_under_peak (m : Q) (l : list Q) :
  Forall (fun x => (0 < x)%Q) l ->
  Forall under_peak (combine l (expanding_max_from m l)).
Proof.
  intros H. revert m. induction H as [|x t Hx _ IH]; intros m; simpl; constructor.
  - split; [exact Hx|apply Qmax_ge].
  - apply IH.
Qed.

Lemma expanding_max_under_peak (l : list Q) :
  Forall (fun x => (0 < x)%Q) l ->
  Forall under_peak (combine l (expanding_max l)).
Proof.
  intros H. destruct H as [|x t Hx Ht]; simpl; constructor.
  - split; [exact Hx|apply Qle_refl].
  - apply expanding_max_from_under_peak. exact Ht.
Qed.

Lemma drawdown_of_loss_fraction (returns : Series) :
  Forall (fun r => (0 < 1 + r)%Q) (values returns) ->
  Forall loss_fraction (drawdown_of returns).
Proof.
  intros H. unfold drawdown_of.
  assert (Hc : Forall (fun x => (0 < x)%Q)
                 (cumprod (map (fun r => (1 + r)%Q) (values returns)))).
  { apply cumprod_from_positive; [reflexivity|].
    induction H; simpl; constructor; auto. }
  apply expanding_max_under_peak in Hc.
  induction Hc as [|[c m] t [Hpos Hle] _ IH]; simpl; constructor; [|exact IH].
  cbn [fst snd] in *. assert (Hm : (0 < m)%Q) by lra. split.
  - apply Qlt_shift_div_l; [exact Hm|]. lra.
  - apply Qle_shift_div_r; [exact Hm|]. lra.
Qed.

Lemma Qmin_loss_fraction (a b : Q) :
  loss_fraction a -> loss_fraction b -> loss_fraction (Qmin a b).
Proof.
  unfold Qmin. destruct (Qle_bool a b); auto.
Qed.

Lemma fold_Qmin_loss_fraction (t : list Q) (x : Q) :
  loss_fraction x -> Forall loss_fraction t -> loss_fraction (fold_left Qmin t x).
Proof.
  intros Hx Ht. revert x Hx.
  induction Ht as [|y t Hy _ IH]; intros x Hx; simpl; [exact Hx|].
  apply IH. apply Qmin_loss_fraction; assumption.
Qed.

Lemma drawdown_of_nonempty (returns : Series) :
  returns <> [] -> drawdown_of returns <> [].
Proof.
  destruct returns as [|[d r] t]; [contradiction|]. intros _. discriminate.
Qed.

(** X1.  With positive closes and at least two rows, the maximum drawdown
    of the risk metrics is a number from -100 to 0. *)
Theorem max_drawdown_between_minus_100_and_0 (np_sqrt : Q -> Q) (w : World)
    (hist : list Bar) :
  positive_closes hist -> (2 <= length hist)%nat ->
  exists d : Q,
    max_drawdown (_compute_risk_metrics np_sqrt w hist) = Fin d
    /\ (-100 <= d)%Q /\ (d <= 0)%Q.
Proof.
  intros Hpos Hlen.
  set (returns := pct_change (closes hist)).
  assert (Hall : Forall loss_fraction (drawdown_of returns)).
  { apply drawdown_of_loss_fraction, pct_change_growth_positive,
      positive_closes_series, Hpos. }
  assert (Hne : drawdown_of returns <> []).
  { apply drawdown_of_nonempty. intros E.
    pose proof (length_pct_change (closes hist)) as HL.
    fold returns in HL. rewrite E in HL. unfold closes in HL.
    rewrite length_map in HL. simpl in HL. lia. }
  cbn [max_drawdown _compute_risk_metrics]. fold returns.
  destruct (drawdown_of returns) as [|x t]; [contradiction|].
  inversion Hall as [|? ? Hx Ht]; subst.
  destruct (fold_Qmin_loss_fraction t x Hx Ht) as [Hlo Hhi].
  cbn [series_min fmul fmap2 py_round fmap1].
  eexists. split; [reflexivity|].
  destruct (round_q_between (-1000) 0 (fold_left Qmin t x * 100) 1) as [H1 H2].
  - change (inject_Z (Z.pos (scale10 1))) with 10%Q.
    change (inject_Z (-1000)) with (-1000)%Q. lra.
  - change (inject_Z (Z.pos (scale10 1))) with 10%Q.
    change (inject_Z 0) with 0%Q. lra.
  - split.
    + eapply Qle_trans; [|exact H1]. discriminate.
    + eapply Qle_trans; [exact H2|]. discriminate.
Qed.

Lemma max_drawdown_between_minus_100_and_0_witness :
  exists d : Q,
    max_drawdown (_compute_risk_metrics sqrt_milli sample_world choppy_week) = Fin d
    /\ (-100 <= d)%Q /\ (d <= 0)%Q.
Proof.
  apply max_drawdown_between_minus_100_and_0.
  - unfold positive_closes. vm_compute. repeat constructor.
  - vm_compute. lia.
Defined.

(** ** Recovery episodes *)

(** The loop keeps every recorded length at least 1: an open episode
    started at an earlier row. *)
Lemma recovery_loop_lengths (drawdown : list Q) :
  forall (i : nat) (in_drawdown : bool) (drawdown_start : option nat)
         (recovery_periods : list nat),
    (in_drawdown = true ->
     exists s, drawdown_start = Some s /\ (s < i)%nat) ->
    Forall (fun n => (1 <= n)%nat) recovery_periods ->
    Forall (fun n => (1 <= n)%nat)
      (recovery_loop i in_drawdown drawdown_start recovery_periods drawdown).
Proof.
  induction drawdown as [|val t IH]; intros i ind start acc Hopen Hacc;
    cbn [recovery_loop]; [exact Hacc|].
  destruct (Qlt_bool val (- (5 # 100)) && negb ind) eqn:E1.
  - apply IH; [|exact Hacc]. intros _. exists i. split; [reflexivity|lia].
  - destruct (Qle_bool (- (1 # 100)) val && ind) eqn:E2.
    + apply IH; [discriminate|].
      apply andb_true_iff in E2 as [_ Hind].
      destruct (Hopen Hind) as (s & -> & Hs).
      apply Forall_app. split; [exact Hacc|].
      constructor; [lia|constructor].
    + apply IH; [|exact Hacc].
      intros Hind. destruct (Hopen Hind) as (s & -> & Hs).
      exists s. split; [reflexivity|lia].
Qed.

Lemma sum_at_least_length (l : list nat) :
  Forall (fun n => (1 <= n)%nat) l -> (length l <= fold_right Nat.add 0 l)%nat.
Proof.
  induction 1; simpl; lia.
Qed.

Lemma avg_recovery_at_least_one (l : list nat) (n : nat) :
  Forall (fun k => (1 <= k)%nat) l -> avg_recovery l = Some n -> (1 <= n)%nat.
Proof.
  intros H E.
  assert (E' : (fold_right Nat.add 0 l / length l)%nat = n /\ l <> []).
  { destruct l as [|x t]; [discriminate|].
    injection E as E. split; [exact E|discriminate]. }
  destruct E' as [<- Hne].
  apply Nat.div_le_lower_bound; [destruct l; [contradiction|discriminate]|].
  rewrite Nat.mul_1_r. apply sum_at_least_length. exact H.
Qed.

(** X2.  An average recovery time that is computed is at least one row, so
    the narrative, which drops a zero, always shows it. *)
Theorem avg_recovery_days_is_shown (np_sqrt : Q -> Q) (w : World)
    (hist : list Bar) (preferences : gmap string string) (n : nat) :
  let risk := _compute_risk_metrics np_sqrt w hist in
  avg_recovery_days risk = Some n ->
  (1 <= n)%nat
  /\ In ("  Average Recovery Time: " +:+ str_nat n +:+ " days")
        (risk_section risk preferences).
Proof.
  intros risk E.
  assert (Hn : (1 <= n)%nat).
  { unfold risk in E. cbn [avg_recovery_days _compute_risk_metrics] in E.
    eapply avg_recovery_at_least_one; [|exact E].
    apply recovery_loop_lengths; [discriminate|constructor]. }
  split; [exact Hn|].
  unfold risk_section. rewrite E.
  destruct n as [|n]; [lia|].
  apply in_or_app. right. apply in_or_app. right.
  apply in_or_app. left. left. reflexivity.
Qed.

Lemma avg_recovery_days_is_shown_witness :
  In "  Average Recovery Time: 2 days"
     (risk_section (_compute_risk_metrics sqrt_milli sample_world dip_week) ∅).
Proof.
  refine (proj2 (avg_recovery_days_is_shown sqrt_milli sample_world dip_week ∅ 2 _)).
  vm_compute. reflexivity.
Defined.

(** ** Trends and windows *)

Lemma band3_label (recent reference up down : Q) (above below within : string) :
  let label := band3 recent reference up down above below within in
  label = above \/ label = below \/ label = within.
Proof.
  unfold band3.
  destruct (Qlt_bool (reference * up) recent); [auto|].
  destruct (Qlt_bool recent (reference * down)); auto.
Qed.

(** X3.  Each trend is reported as insufficient data exactly when the
    history is shorter than its window: 126 rows for the price trend, 63 for
    the volume trend and 50 for the position against the moving average. *)
Theorem trends_insufficient_exactly_when_short (hist : list Bar) :
  let trend := _analyze_trends hist in
  (price_trend_3m trend = "insufficient_data" <-> (length hist < 126)%nat)
  /\ (volume_trend trend = "insufficient_data" <-> (length hist < 63)%nat)
  /\ (position_vs_50day_avg trend = "insufficient_data" <-> (length hist < 50)%nat).
Proof.
  assert (Hv : length (values (volumes hist)) = length hist).
  { unfold values, volumes. rewrite !length_map. reflexivity. }
  cbv zeta. unfold _analyze_trends.
  cbn [price_trend_3m volume_trend position_vs_50day_avg].
  rewrite Hv, length_closes.
  repeat split.
  - destruct (Nat.leb_spec 126 (length hist)); [|lia].
    match goal with |- band3 ?a ?b ?c ?d ?x ?y ?z = _ -> _ =>
      destruct (band3_label a b c d x y z) as [-> | [-> | ->]] end; discriminate.
  - intros H. rewrite (proj2 (Nat.leb_gt _ _) H). reflexivity.
  - destruct (Nat.leb_spec 63 (length hist)); [|lia].
    match goal with |- band3 ?a ?b ?c ?d ?x ?y ?z = _ -> _ =>
      destruct (band3_label a b c d x y z) as [-> | [-> | ->]] end; discriminate.
  - intros H. rewrite (proj2 (Nat.leb_gt _ _) H). reflexivity.
  - destruct (Nat.leb_spec 50 (length hist)); [|lia].
    match goal with |- band3 ?a ?b ?c ?d ?x ?y ?z = _ -> _ =>
      destruct (band3_label a b c d x y z) as [-> | [-> | ->]] end; discriminate.
  - intros H. rewrite (proj2 (Nat.leb_gt _ _) H). reflexivity.
Qed.

Lemma trailing_return_some (prices : list Q) (days : nat) :
  trailing_return prices days <> None <-> (days <= length prices)%nat.
Proof.
  unfold trailing_return.
  destruct (Nat.leb_spec days (length prices)); split.
  - intros _. assumption.
  - intros _. discriminate.
  - intros H'. exfalso. apply H'. reflexivity.
  - lia.
Qed.

(** X4.  A longer trailing return is only there when the shorter ones are:
    the 1-year return brings the 6-month, the 6-month the 3-month, the
    3-month the 1-month; and the comparison with the benchmark is only there
    with the 1-year return. *)
Theorem trailing_returns_are_nested (w : World) (hist : list Bar) :
  let perf := _compute_performance w hist in
  (vs_sp500_1y perf <> None -> return_1y perf <> None)
  /\ (return_1y perf <> None -> return_6m perf <> None)
  /\ (return_6m perf <> None -> return_3m perf <> None)
  /\ (return_3m perf <> None -> return_1m perf <> None).
Proof.
  cbv zeta. unfold _compute_performance.
  cbn [vs_sp500_1y return_1y return_6m return_3m return_1m].
  rewrite !trailing_return_some. repeat split; try lia.
  unfold vs_market_of.
  destruct (yf_history w "SPY" "1y") as [spy|]; [|contradiction].
  destruct (Nat.leb_spec 252 (length (values (closes hist)))).
  - intros _. assumption.
  - rewrite andb_false_r. contradiction.
Qed.

Lemma trailing_returns_are_nested_witness :
  return_6m (_compute_performance sample_world aapl_year) <> None.
Proof.
  destruct (trailing_returns_are_nested sample_world aapl_year) as (_ & H & _).
  apply H. vm_compute. discriminate.
Defined.

Lemma round_half_even_ge (a : Z) (y : Q) :
  (inject_Z a <= y)%Q -> (a <= round_half_even y)%Z.
Proof.
  intros H.
  apply (round_half_even_between a (Qfloor y + 1) y H).
  apply Qlt_le_weak, Qlt_floor.
Qed.

Lemma round_half_even_le (b : Z) (y : Q) :
  (y <= inject_Z b)%Q -> (round_half_even y <= b)%Z.
Proof.
  intros H.
  apply (round_half_even_between (Qfloor y) b y (Qfloor_le y) H).
Qed.

Lemma positive_values_closes (hist : list Bar) :
  positive_closes hist -> Forall (fun p => (0 < p)%Q) (values (closes hist)).
Proof.
  unfold positive_closes, values, closes. intros H.
  induction H; simpl; constructor; auto.
Qed.

Lemma iloc_neg_positive (prices : list Q) (k : nat) :
  Forall (fun p => (0 < p)%Q) prices ->
  (1 <= k)%nat -> (k <= length prices)%nat ->
  (0 < iloc_neg prices k)%Q.
Proof.
  intros H Hk Hlen. unfold iloc_neg.
  rewrite List.Forall_forall in H. apply H. apply nth_In. lia.
Qed.

(** X5.  With positive closes a trailing return that is there is a number
    of at least -100; it is not negative when the last close is at least the
    close the window starts from, and not positive when it is at most that
    close. *)
Theorem trailing_return_bounds (w : World) (hist : list Bar) (days : nat)
    (value : pyfloat) :
  In days windows ->
  positive_closes hist ->
  return_field (_compute_performance w hist) days = Some value ->
  let prices := values (closes hist) in
  exists r : Q,
    value = Fin r
    /\ (-100 <= r)%Q
    /\ ((iloc_neg prices days <= iloc_neg prices 1)%Q -> (0 <= r)%Q)
    /\ ((iloc_neg prices 1 <= iloc_neg prices days)%Q -> (r <= 0)%Q).
Proof.
  intros Hdays Hpos Hfield prices.
  assert (Hk : (1 <= days)%nat).
  { unfold windows in Hdays. simpl in Hdays. lia. }
  assert (Hf : return_field (_compute_performance w hist) days
               = trailing_return prices days).
  { unfold windows in Hdays. simpl in Hdays.
    destruct Hdays as [<-|[<-|[<-|[<-|[]]]]]; reflexivity. }
  rewrite Hf in Hfield. unfold trailing_return in Hfield.
  destruct (Nat.leb_spec days (length prices)) as [Hlen|]; [|discriminate].
  injection Hfield as <-.
  pose proof (positive_values_closes hist Hpos) as Hp. fold prices in Hp.
  pose proof (iloc_neg_positive prices 1 Hp (le_n 1) (Nat.le_trans _ _ _ Hk Hlen)) as Ha.
  pose proof (iloc_neg_positive prices days Hp Hk Hlen) as Hb.
  cbn [py_round fmap1]. eexists. split; [reflexivity|].
  unfold period_return.
  set (a := iloc_neg prices 1) in *. set (b := iloc_neg prices days) in *.
  clearbody a b.
  assert (Hq : (0 < a / b)%Q).
  { apply Qlt_shift_div_l; [exact Hb|]. rewrite Qmult_0_l. exact Ha. }
  unfold round_q.
  change (inject_Z (Z.pos (scale10 2))) with 100%Q.
  change (scale10 2) with 100%positive.
  repeat split.
  - assert ((-10000 <= round_half_even ((a / b - 1) * 100 * 100))%Z).
    { apply round_half_even_ge. change (inject_Z (-10000)) with (-10000)%Q. lra. }
    unfold Qle. cbn [Qnum Qden]. lia.
  - intros Hge.
    assert (1 <= a / b)%Q by (apply Qle_shift_div_l; [exact Hb|lra]).
    assert ((0 <= round_half_even ((a / b - 1) * 100 * 100))%Z).
    { apply round_half_even_ge. change (inject_Z 0) with 0%Q. lra. }
    unfold Qle. cbn [Qnum Qden]. lia.
  - intros Hle.
    assert (a / b <= 1)%Q by (apply Qle_shift_div_r; [exact Hb|lra]).
    assert ((round_half_even ((a / b - 1) * 100 * 100) <= 0)%Z).
    { apply round_half_even_le. change (inject_Z 0) with 0%Q. lra. }
    unfold Qle. cbn [Qnum Qden]. lia.
Qed.

Lemma trailing_return_bounds_witness :
  exists r : Q,
    Fin (3333 # 100) = Fin r /\ (-100 <= r)%Q.
Proof.
  destruct (trailing_return_bounds sample_world thirds_month 21 (Fin (3333 # 100)))
    as (r & Hr & Hlow & _).
  - simpl. auto.
  - unfold positive_closes. vm_compute. repeat constructor.
  - vm_compute. reflexivity.
  - exists r. split; assumption.
Defined.

(** ** The narrative and the rounded volatility *)

Lemma low_context_differs_from_moderate (rt : string) (v : Q) :
  (v < 15)%Q ->
  _get_volatility_context (Fin 15) rt <> _get_volatility_context (Fin v) rt.
Proof.
  intros Hv. unfold _get_volatility_context.
  replace (flt (Fin v) (Fin 15)) with true
    by (symmetry; apply Qlt_bool_iff; exact Hv).
  destruct (String.eqb rt "Low"), (String.eqb rt "High"); cbn; discriminate.
Qed.

(** X6.  The classification reads the volatility before rounding and the
    narrative reads it after.  A volatility from 14.95 up to but not
    including 15 is classified Low and stored as 15.0, so the narrative shows
    15.0% (Low risk) next to the context sentence of the moderate band, not
    the one of the low band. *)
Theorem classification_and_context_disagree (np_sqrt : Q -> Q) (w : World)
    (hist : list Bar) (preferences : gmap string string) (v : Q) :
  volatility_of np_sqrt (pct_change (closes hist)) = Fin v ->
  (1495 # 100 <= v)%Q -> (v < 15)%Q ->
  let risk := _compute_risk_metrics np_sqrt w hist in
  let rt := default "Medium" (preferences !! "risk_tolerance") in
  risk_classification risk = "Low"
  /\ volatility_annual risk = Fin (150 # 10)
  /\ In "  Annualized Volatility: 15.0% (Low risk)" (risk_section risk preferences)
  /\ In ("  Context: " +:+ _get_volatility_context (Fin 15) rt)
        (risk_section risk preferences)
  /\ _get_volatility_context (Fin 15) rt <> _get_volatility_context (Fin v) rt.
Proof.
  intros Hvol Hlo Hhi risk rt.
  assert (Hc : risk_classification risk = "Low").
  { unfold risk. cbn [risk_classification _compute_risk_metrics].
    rewrite Hvol. unfold classify, flt.
    rewrite (proj2 (Qlt_bool_iff v 15) Hhi). reflexivity. }
  assert (Ha : volatility_annual risk = Fin (150 # 10)).
  { unfold risk. cbn [volatility_annual _compute_risk_metrics].
    rewrite Hvol. cbn [py_round fmap1]. unfold round_q.
    change (inject_Z (Z.pos (scale10 1))) with 10%Q.
    rewrite (round_half_even_up_to_even 150); [reflexivity|reflexivity| |].
    - change (inject_Z 150) with 150%Q. lra.
    - change (inject_Z 150) with 150%Q. lra. }
  split; [exact Hc|]. split; [exact Ha|].
  unfold risk_section. rewrite Hc, Ha. fold rt.
  split; [|split].
  - apply in_or_app. left. right. left. reflexivity.
  - apply in_or_app. left. right. right. left.
    replace (_get_volatility_context (Fin (150 # 10)) rt)
      with (_get_volatility_context (Fin 15) rt); reflexivity.
  - apply low_context_differs_from_moderate. exact Hhi.
Qed.

Lemma classification_and_context_disagree_witness :
  let risk := _compute_risk_metrics sqrt_micro sample_world edge_days in
  risk_classification risk = "Low"
  /\ In "  Context: This moderate volatility is typical for diversified portfolios seeking balanced growth"
        (risk_section risk ∅).
Proof.
  intros risk.
  destruct (classification_and_context_disagree sqrt_micro sample_world edge_days ∅
              (14972835002400 # 1000000000000))
    as (Hc & _ & _ & Hx & _).
  - vm_compute. reflexivity.
  - discriminate.
  - reflexivity.
  - split; [exact Hc|exact Hx].
Defined.

(** ** The entries of the narrative *)

Lemma header_section_entries (s : Summary) :
  List.filter is_heading (header_section s) = []
  /\ List.filter is_context (header_section s) = [].
Proof.
  split; reflexivity.
Qed.

Lemma basic_section_entries (basic : BasicInfo) :
  List.filter is_heading (basic_section basic) = ["BASIC INFORMATION:"]
  /\ List.filter is_context (basic_section basic) = [].
Proof.
  unfold basic_section, line_if.
  destruct (fgt (dividend_yield basic) (Fin 0)); split; reflexivity.
Qed.

Lemma risk_section_entries (risk : RiskMetrics) (preferences : gmap string string) :
  List.filter is_heading (risk_section risk preferences) = ["RISK CHARACTERISTICS:"]
  /\ List.filter is_context (risk_section risk preferences)
     = [ "  Context: " +:+
           _get_volatility_context (volatility_annual risk)
             (default "Medium" (preferences !! "risk_tolerance")) ].
Proof.
  unfold risk_section, line_if.
  destruct (_get_volatility_context (volatility_annual risk)
              (default "Medium" (preferences !! "risk_tolerance")));
    (destruct (beta risk) as [b|]; [destruct (ftruthy b)|]);
    (destruct (avg_recovery_days risk) as [n|]; [destruct (negb (n =? 0)%nat)|]);
    split; reflexivity.
Qed.

Lemma performance_section_entries (perf : Performance) :
  List.filter is_heading (performance_section perf) = ["HISTORICAL PERFORMANCE:"]
  /\ List.filter is_context (performance_section perf) = [].
Proof.
  unfold performance_section, return_line.
  destruct (return_1m perf), (return_3m perf), (return_1y perf),
    (vs_sp500_1y perf); split; reflexivity.
Qed.

Lemma trends_section_entries (trends : Trends) :
  List.filter is_heading (trends_section trends) = ["RECENT TRENDS:"]
  /\ List.filter is_context (trends_section trends) = [].
Proof.
  split; reflexivity.
Qed.

(** X7.  Whatever the summary holds, the entries of the narrative have the
    four section headings once each and in the order basic information,
    risk, performance, trends, and exactly one context entry, which is the
    sentence for the stored volatility and the caller's risk tolerance
    (Medium when the key is missing). *)
Theorem narrative_headings_and_context (s : Summary) (preferences : gmap string string) :
  List.filter is_heading (sections_of s preferences) = headings
  /\ List.filter is_context (sections_of s preferences)
     = [ "  Context: " +:+
           _get_volatility_context (volatility_annual (risk_metrics s))
             (default "Medium" (preferences !! "risk_tolerance")) ].
Proof.
  unfold sections_of. rewrite !List.filter_app.
  destruct (header_section_entries s) as [-> ->].
  destruct (basic_section_entries (basic_info s)) as [-> ->].
  destruct (risk_section_entries (risk_metrics s) preferences) as [-> ->].
  destruct (performance_section_entries (performance s)) as [-> ->].
  destruct (trends_section_entries (trends s)) as [-> ->].
  split; reflexivity.
Qed.

(** ** Preferences the engine does not know *)

Lemma volatility_frames_missing (key : string) :
  ~ In key tolerances -> getitem volatility_frames key = Raise (KeyError key).
Proof.
  intros H. unfold getitem, volatility_frames.
  rewrite !lookup_insert_ne, lookup_singleton_ne; [reflexivity|..];
    intros <-; apply H; simpl; auto.
Qed.

Lemma time_frames_missing (key : string) :
  ~ In key horizons -> getitem time_frames key = Raise (KeyError key).
Proof.
  intros H. unfold getitem, time_frames.
  rewrite !lookup_insert_ne, lookup_singleton_ne; [reflexivity|..];
    intros <-; apply H; simpl; auto.
Qed.

Lemma behavior_frames_missing (key : string) :
  ~ In key behaviors -> getitem behavior_frames key = Raise (KeyError key).
Proof.
  intros H. unfold getitem, behavior_frames.
  rewrite !lookup_insert_ne, lookup_singleton_ne; [reflexivity|..];
    intros <-; apply H; simpl; auto.
Qed.

Lemma time_frame_defined (key : string) :
  In key horizons -> exists frame, getitem time_frames key = Ok frame.
Proof.
  unfold horizons. simpl.
  intros [<-|[<-|[]]]; eexists; vm_compute; reflexivity.
Qed.

(** X8.  [get_interpretive_context] and [get_prompt_guidance] succeed
    exactly on the twelve vectors of known values; otherwise they raise a
    [KeyError] for the first value that is no key of its table, in the order
    risk tolerance, time horizon, risk behavior. *)
Theorem interpretive_context_key_errors (self : PreferenceEngine) :
  (~ In (risk_tolerance self) tolerances ->
   get_interpretive_context self = Raise (KeyError (risk_tolerance self))
   /\ get_prompt_guidance self = Raise (KeyError (risk_tolerance self)))
  /\ (In (risk_tolerance self) tolerances -> ~ In (time_horizon self) horizons ->
      get_interpretive_context self = Raise (KeyError (time_horizon self))
      /\ get_prompt_guidance self = Raise (KeyError (time_horizon self)))
  /\ (In (risk_tolerance self) tolerances -> In (time_horizon self) horizons ->
      ~ In (risk_behavior self) behaviors ->
      get_interpretive_context self = Raise (KeyError (risk_behavior self))
      /\ get_prompt_guidance self = Raise (KeyError (risk_behavior self)))
  /\ (In (risk_tolerance self) tolerances -> In (time_horizon self) horizons ->
      In (risk_behavior self) behaviors ->
      (exists context, get_interpretive_context self = Ok context)
      /\ (exists guidance, get_prompt_guidance self = Ok guidance)).
Proof.
  unfold get_prompt_guidance, get_interpretive_context.
  split; [|split; [|split]].
  - intros H. rewrite (volatility_frames_missing _ H). split; reflexivity.
  - intros H1 H2. destruct (volatility_frame_defined _ H1) as [vf ->].
    cbn [bind]. rewrite (time_frames_missing _ H2). split; reflexivity.
  - intros H1 H2 H3. destruct (volatility_frame_defined _ H1) as [vf ->].
    destruct (time_frame_defined _ H2) as [tf ->].
    cbn [bind]. rewrite (behavior_frames_missing _ H3). split; reflexivity.
  - intros H1 H2 H3.
    destruct (guidance_defined self H1 H2 H3) as [guidance Hg].
    unfold get_prompt_guidance, get_interpretive_context in Hg.
    destruct (volatility_frame_defined _ H1) as [vf Hvf].
    destruct (time_frame_defined _ H2) as [tf Htf].
    rewrite Hvf, Htf in *. cbn [bind] in *.
    destruct (getitem behavior_frames (risk_behavior self)) as [bf|e];
      [|discriminate Hg].
    cbn [bind]. split; eexists; reflexivity.
Qed.

Lemma interpretive_context_key_errors_witness :
  get_prompt_guidance (mkEngine "Medium" "Mid-term" "Risk-averse")
  = Raise (KeyError "Mid-term").
Proof.
  destruct (interpretive_context_key_errors (mkEngine "Medium" "Mid-term" "Risk-averse"))
    as (_ & H & _).
  apply H.
  - simpl. auto.
  - simpl. intros [H'|[H'|[]]]; discriminate H'.
Defined.

Lemma volatility_context_defaults_to_medium (volatility : pyfloat) (rt : string) :
  ~ In rt tolerances ->
  _get_volatility_context volatility rt = _get_volatility_context volatility "Medium".
Proof.
  intros H. unfold _get_volatility_context.
  destruct (String.eqb_spec rt "Low") as [->|_];
    [exfalso; apply H; simpl; auto|].
  destruct (String.eqb_spec rt "High") as [->|_];
    [exfalso; apply H; simpl; auto|].
  reflexivity.
Qed.

(** X9.  A risk tolerance that is none of Low, Medium and High does not stop
    the formatter, which writes the narrative of Medium for it; but the entry
    point, once the stock data is there, raises a [KeyError] for it. *)
Theorem unknown_risk_tolerance_raises (np_sqrt : Q -> Q) (w : World)
    (query_text ticker : string) (preferences : gmap string string)
    (use_rules : bool) (stock_summary : Summary) (rt : string) :
  get_stock_summary np_sqrt w ticker "1y" = Some stock_summary ->
  preferences !! "risk_tolerance" = Some rt ->
  ~ In rt tolerances ->
  format_for_llm (Some stock_summary) preferences
  = format_for_llm (Some stock_summary) (<["risk_tolerance" := "Medium"]> preferences)
  /\ query_financial_dss np_sqrt w query_text ticker preferences use_rules
     = Raise (KeyError rt).
Proof.
  intros Hs Hrt Hno. split.
  - unfold format_for_llm, sections_of, risk_section.
    rewrite Hrt, lookup_insert_eq. cbn [default].
    rewrite (volatility_context_defaults_to_medium _ rt Hno). reflexivity.
  - unfold query_financial_dss. rewrite Hs.
    destruct (rules_step w query_text ticker use_rules) as [rules_context sources].
    destruct (interpretive_context_key_errors (make_pref_engine preferences))
      as [H _].
    assert (E : risk_tolerance (make_pref_engine preferences) = rt).
    { unfold make_pref_engine. cbn [risk_tolerance]. rewrite Hrt. reflexivity. }
    rewrite E in H. destruct (H Hno) as [_ ->]. reflexivity.
Qed.

Lemma unknown_risk_tolerance_raises_witness :
  query_financial_dss sqrt_milli sample_world "Is this stock too risky?" "AAPL"
    {[ "risk_tolerance" := "Very High" ]} true
  = Raise (KeyError "Very High").
Proof.
  summary_of sqrt_milli sample_world "AAPL" "1y" stock_summary Hs.
  refine (proj2 (unknown_risk_tolerance_raises sqrt_milli sample_world
                   "Is this stock too risky?" "AAPL"
                   {[ "risk_tolerance" := "Very High" ]} true
                   stock_summary "Very High" Hs _ _)).
  - reflexivity.
  - simpl. intros [H|[H|[H|[]]]]; discriminate H.
Defined.

(** ** The twelve preference vectors *)

Lemma known_cases (self : PreferenceEngine) : known self -> In self known_vectors.
Proof.
  destruct self as [rt th rb].
  unfold known, known_vectors, tolerances, horizons, behaviors.
  simpl. intros ([<-|[<-|[<-|[]]]] & [<-|[<-|[]]] & [<-|[<-|[]]]); tauto.
Qed.

Lemma engine_eqb_eq (e1 e2 : PreferenceEngine) : engine_eqb e1 e2 = true -> e1 = e2.
Proof.
  destruct e1, e2. unfold engine_eqb. cbn [risk_tolerance time_horizon risk_behavior].
  rewrite !andb_true_iff, !String.eqb_eq. intros [[-> ->] ->]. reflexivity.
Qed.

Lemma known_vectors_told_apart :
  forallb (fun e1 => forallb (told_apart e1) known_vectors) known_vectors = true.
Proof.
  vm_compute. reflexivity.
Qed.

Lemma behavior_frame_defined (key : string) :
  In key behaviors -> exists frame, getitem behavior_frames key = Ok frame.
Proof.
  unfold behaviors. simpl.
  intros [<-|[<-|[]]]; eexists; vm_compute; reflexivity.
Qed.

(** X10.  On the twelve known vectors the three axes are read apart: the
    emphasis, concern and positive language come from the risk tolerance
    alone, the data focus, volatility interpretation and recovery perspective
    from the time horizon alone, the perspective, decision framing and
    trade-off priority from the risk behavior alone; and two different
    vectors never get the same context nor the same guidance text. *)
Theorem interpretive_context_by_axis (e1 e2 : PreferenceEngine) :
  known e1 -> known e2 ->
  exists c1 c2 g1 g2,
    get_interpretive_context e1 = Ok c1
    /\ get_interpretive_context e2 = Ok c2
    /\ get_prompt_guidance e1 = Ok g1
    /\ get_prompt_guidance e2 = Ok g2
    /\ (risk_tolerance e1 = risk_tolerance e2 ->
        volatility_emphasis c1 = volatility_emphasis c2
        /\ concern_language c1 = concern_language c2
        /\ positive_language c1 = positive_language c2)
    /\ (time_horizon e1 = time_horizon e2 ->
        data_focus c1 = data_focus c2
        /\ volatility_interpretation c1 = volatility_interpretation c2
        /\ recovery_perspective c1 = recovery_perspective c2)
    /\ (risk_behavior e1 = risk_behavior e2 ->
        analysis_perspective c1 = analysis_perspective c2
        /\ decision_framing c1 = decision_framing c2
        /\ trade_off_priority c1 = trade_off_priority c2)
    /\ (e1 <> e2 -> c1 <> c2 /\ g1 <> g2).
Proof.
  intros K1 K2.
  pose proof (known_cases e1 K1) as In1. pose proof (known_cases e2 K2) as In2.
  destruct K1 as (Hrt1 & Hth1 & Hrb1), K2 as (Hrt2 & Hth2 & Hrb2).
  destruct (volatility_frame_defined _ Hrt1) as [vf1 Hvf1].
  destruct (volatility_frame_defined _ Hrt2) as [vf2 Hvf2].
  destruct (time_frame_defined _ Hth1) as [tf1 Htf1].
  destruct (time_frame_defined _ Hth2) as [tf2 Htf2].
  destruct (behavior_frame_defined _ Hrb1) as [bf1 Hbf1].
  destruct (behavior_frame_defined _ Hrb2) as [bf2 Hbf2].
  pose proof known_vectors_told_apart as Hall.
  rewrite forallb_forall in Hall. specialize (Hall e1 In1).
  rewrite forallb_forall in Hall. specialize (Hall e2 In2).
  unfold told_apart, context_key, guidance_text in Hall.
  unfold get_prompt_guidance in *. unfold get_interpretive_context in *.
  rewrite Hvf1, Htf1, Hbf1, Hvf2, Htf2, Hbf2 in *. cbn [bind] in *.
  do 4 eexists. repeat (split; [reflexivity|]).
  cbn [volatility_emphasis concern_language positive_language data_focus
       volatility_interpretation recovery_perspective analysis_perspective
       decision_framing trade_off_priority] in *.
  split; [|split; [|split]].
  - intros E. rewrite E, Hvf2 in Hvf1. injection Hvf1 as ->. repeat split.
  - intros E. rewrite E, Htf2 in Htf1. injection Htf1 as ->. repeat split.
  - intros E. rewrite E, Hbf2 in Hbf1. injection Hbf1 as ->. repeat split.
  - intros Hne.
    apply orb_true_iff in Hall as [Heq|Hdiff];
      [exfalso; apply Hne, engine_eqb_eq, Heq|].
    apply andb_true_iff in Hdiff as [Hc Hg].
    apply negb_true_iff in Hc, Hg.
    apply String.eqb_neq in Hc, Hg. split.
    + intros E. apply Hc. injection E as -> _ _ -> _ _ -> _ _. reflexivity.
    + exact Hg.
Qed.

Lemma interpretive_context_by_axis_witness :
  exists c1 c2,
    get_interpretive_context (mkEngine "Low" "Long-term (>1yr)" "Risk-averse") = Ok c1
    /\ get_interpretive_context (mkEngine "Low" "Short-term (<1yr)" "Risk-seeking") = Ok c2
    /\ concern_language c1 = concern_language c2
    /\ c1 <> c2.
Proof.
  destruct (interpretive_context_by_axis
              (mkEngine "Low" "Long-term (>1yr)" "Risk-averse")
              (mkEngine "Low" "Short-term (<1yr)" "Risk-seeking"))
    as (c1 & c2 & g1 & g2 & E1 & E2 & _ & _ & Hrt & _ & _ & Hne).
  - repeat split; simpl; auto.
  - repeat split; simpl; auto.
  - exists c1, c2. split; [exact E1|]. split; [exact E2|].
    split; [apply Hrt; reflexivity|].
    apply Hne. discriminate.
Defined.

(** ** The explainers *)



Lemma flt_abs_opp (dd bound : Q) :
  flt (fabs (Fin (- dd))) (Fin bound) = flt (fabs (Fin dd)) (Fin bound).
Proof.
  unfold fabs, fmap1, flt.
  destruct (Qlt_bool (Qabs dd) bound) eqn:E.
  - apply Qlt_bool_iff. apply Qlt_bool_iff in E. rewrite Qabs_opp. exact E.
  - apply Qlt_bool_false_iff. apply Qlt_bool_false_iff in E.
    rewrite Qabs_opp. exact E.
Qed.

(** X12.  The drawdown explainer picks its phrase by the size of the
    drawdown, whatever its sign, in the bands below 10, from 10 to below 20,
    and from 20 up; a risk behavior that is not Risk-averse gets the phrases
    of Risk-seeking. *)
Theorem drawdown_explainer_bands (self : PreferenceEngine) (dd : Q) :
  exists phrase : string,
    _interpret_drawdown self (Fin dd) = fmt_fixed 1 false (Fin dd) +:+ phrase
    /\ _interpret_drawdown self (Fin (- dd)) = fmt_fixed 1 false (Fin (- dd)) +:+ phrase
    /\ ((Qabs dd < 10)%Q ->
        phrase = if String.eqb (risk_behavior self) "Risk-averse"
                 then "% maximum drawdown indicates limited downside exposure"
                 else "% maximum drawdown suggests constrained volatility limiting return potential")
    /\ ((10 <= Qabs dd)%Q -> (Qabs dd < 20)%Q ->
        phrase = if String.eqb (risk_behavior self) "Risk-averse"
                 then "% maximum drawdown represents notable capital risk requiring consideration"
                 else "% maximum drawdown is typical for growth-oriented investments")
    /\ ((20 <= Qabs dd)%Q ->
        phrase = if String.eqb (risk_behavior self) "Risk-averse"
                 then "% maximum drawdown signals severe downside exposure posing preservation challenges"
                 else "% maximum drawdown indicates high volatility characteristic of aggressive positions").
Proof.
  unfold _interpret_drawdown. rewrite !flt_abs_opp.
  unfold fabs, fmap1, flt.
  destruct (Qlt_bool (Qabs dd) 10) eqn:E10.
  - apply Qlt_bool_iff in E10.
    destruct (String.eqb (risk_behavior self) "Risk-averse");
      eexists; (split; [reflexivity|]); (split; [reflexivity|]);
      (split; [reflexivity|]); split; intros; exfalso; lra.
  - apply Qlt_bool_false_iff in E10.
    destruct (Qlt_bool (Qabs dd) 20) eqn:E20.
    + apply Qlt_bool_iff in E20.
      destruct (String.eqb (risk_behavior self) "Risk-averse");
        eexists; (split; [reflexivity|]); (split; [reflexivity|]);
        (split; [intros; exfalso; lra|]); split;
        [reflexivity|intros; exfalso; lra|reflexivity|intros; exfalso; lra].
    + apply Qlt_bool_false_iff in E20.
      destruct (String.eqb (risk_behavior self) "Risk-averse");
        eexists; (split; [reflexivity|]); (split; [reflexivity|]);
        (split; [intros; exfalso; lra|]); split;
        [intros; exfalso; lra|reflexivity|intros; exfalso; lra|reflexivity].
Qed.

Lemma drawdown_explainer_bands_witness :
  _interpret_drawdown (mkEngine "Low" "Long-term (>1yr)" "Balanced") (Fin (-25))
  = "-25.0% maximum drawdown indicates high volatility characteristic of aggressive positions".
Proof.
  destruct (drawdown_explainer_bands (mkEngine "Low" "Long-term (>1yr)" "Balanced") 25)
    as (phrase & _ & E & _ & _ & H).
  transitivity (fmt_fixed 1 false (Fin (- (25))) +:+ phrase); [exact E|].
  rewrite H; [reflexivity|discriminate].
Defined.

Lemma append_assoc (a b c : string) : (a +:+ b) +:+ c = a +:+ b +:+ c.
Proof.
  induction a as [|x a IH]; [reflexivity|].
  change (String x ((a +:+ b) +:+ c) = String x (a +:+ b +:+ c)).
  rewrite IH. reflexivity.
Qed.

(** X13.  The beta explainer names the sensitivity and closes the sentence
    by one and the same band: below 0.8, from 0.8 to below 1.2, and from 1.2
    up; a risk behavior that is not Risk-averse gets the closings of
    Risk-seeking. *)
Theorem beta_explainer_bands (self : PreferenceEngine) (beta : Q) :
  exists label closing : string,
    _interpret_beta self (Fin beta)
    = "Beta of " +:+ fmt_fixed 2 false (Fin beta) +:+ " indicates " +:+ label +:+ closing
    /\ ((beta < 8 # 10)%Q ->
        label = "below-market volatility"
        /\ closing = if String.eqb (risk_behavior self) "Risk-averse"
                     then ", providing defensive characteristics"
                     else ", limiting upside capture potential")
    /\ ((8 # 10 <= beta)%Q -> (beta < 12 # 10)%Q ->
        label = "market-like volatility"
        /\ closing = if String.eqb (risk_behavior self) "Risk-averse"
                     then ", tracking market movements closely"
                     else ", participating in market gains proportionally")
    /\ ((12 # 10 <= beta)%Q ->
        label = "above-market volatility"
        /\ closing = if String.eqb (risk_behavior self) "Risk-averse"
                     then ", amplifying market downturns"
                     else ", amplifying market upside").
Proof.
  assert (Hassoc : forall a b c d e : string,
             (a +:+ b +:+ c +:+ d) +:+ e = a +:+ b +:+ c +:+ d +:+ e).
  { intros a b c d e. rewrite !append_assoc. reflexivity. }
  unfold _interpret_beta, flt.
  destruct (Qlt_bool beta (8 # 10)) eqn:E8.
  - apply Qlt_bool_iff in E8.
    destruct (String.eqb (risk_behavior self) "Risk-averse");
      do 2 eexists; (split; [apply Hassoc|]);
      (split; [intros; split; reflexivity|]); split; intros; exfalso; lra.
  - apply Qlt_bool_false_iff in E8.
    destruct (Qlt_bool beta (12 # 10)) eqn:E12.
    + apply Qlt_bool_iff in E12.
      destruct (String.eqb (risk_behavior self) "Risk-averse");
        do 2 eexists; (split; [apply Hassoc|]);
        (split; [intros; exfalso; lra|]); split;
        [intros; split; reflexivity|intros; exfalso; lra
        |intros; split; reflexivity|intros; exfalso; lra].
    + apply Qlt_bool_false_iff in E12.
      destruct (String.eqb (risk_behavior self) "Risk-averse");
        do 2 eexists; (split; [apply Hassoc|]);
        (split; [intros; exfalso; lra|]); split;
        [intros; exfalso; lra|intros; split; reflexivity
        |intros; exfalso; lra|intros; split; reflexivity].
Qed.

Lemma beta_explainer_bands_witness :
  _interpret_beta (mkEngine "Low" "Long-term (>1yr)" "Risk-averse") (Fin (8 # 10))
  = "Beta of 0.80 indicates market-like volatility, tracking market movements closely".
Proof.
  destruct (beta_explainer_bands (mkEngine "Low" "Long-term (>1yr)" "Risk-averse") (8 # 10))
    as (label & closing & E & _ & H & _).
  destruct H as [-> ->]; [discriminate|reflexivity|].
  rewrite E. reflexivity.
Defined.

(** ** Retrieved rules *)

Lemma truthy_nonempty (s : string) : s <> EmptyString -> truthy s = true.
Proof.
  destruct s; [contradiction|reflexivity].
Qed.

Lemma rules_text_nonempty (docs : list Doc) :
  docs <> [] ->
  join (nl +:+ nl)
    (imap (fun i doc => "[Rule " +:+ str_nat (S i) +:+ "] " +:+ strip (page_content doc)) docs)
  <> EmptyString.
Proof.
  destruct docs as [|doc docs]; [contradiction|]. intros _.
  cbn [imap]. apply join_nonempty. discriminate.
Qed.

(** X14.  When the search finds passages, [retrieve_rules] returns one source
    for each passage, in their order and with repeats, Unknown standing for a
    passage without source, and a text that is not empty and holds every
    passage, stripped, behind its number [Rule i], counted from 1. *)
Theorem retrieve_rules_cites_every_passage (w : World) (query_text ticker : string)
    (docs : list Doc) :
  similarity_search w (query_text +:+ " " +:+ ticker +:+ " investment rules constraints")
  = Some docs ->
  docs <> [] ->
  exists rules_text : string,
    retrieve_rules w query_text ticker
    = (rules_text, map (fun doc => default "Unknown" (doc_source doc)) docs)
    /\ rules_text <> EmptyString
    /\ forall (i : nat) (doc : Doc),
        docs !! i = Some doc ->
        contains ("[Rule " +:+ str_nat (S i) +:+ "] " +:+ strip (page_content doc))
          rules_text = true.
Proof.
  intros Hs Hne. unfold retrieve_rules. rewrite Hs.
  destruct docs as [|d ds] eqn:E; [contradiction|]. rewrite <- E in *.
  eexists. split; [reflexivity|]. split.
  - apply rules_text_nonempty. exact Hne.
  - intros i doc Hi. apply contains_join. apply list_elem_of_In.
    apply (list_elem_of_lookup_2 _ i). rewrite list_lookup_imap, Hi. reflexivity.
Qed.

Lemma retrieve_rules_cites_every_passage_witness :
  exists rules_text : string,
    retrieve_rules rules_world "Is this stock too risky?" "AAPL"
    = (rules_text, ["policy.pdf"; "Unknown"; "policy.pdf"])
    /\ contains "[Rule 2] No leverage." rules_text = true.
Proof.
  destruct (retrieve_rules_cites_every_passage rules_world
              "Is this stock too risky?" "AAPL" policy_passages)
    as (rules_text & E & _ & H).
  - reflexivity.
  - discriminate.
  - exists rules_text. split; [exact E|].
    apply (H 1%nat (mkDoc "No leverage." None)). reflexivity.
Defined.

Lemma rules_step_sources (w : World) (query_text ticker : string) (use_rules : bool)
    (x : string) :
  In x (snd (rules_step w query_text ticker use_rules))
  <-> use_rules = true /\ chroma_exists w = true
      /\ exists docs,
          similarity_search w
            (query_text +:+ " " +:+ ticker +:+ " investment rules constraints") = Some docs
          /\ In x (map (fun doc => default "Unknown" (doc_source doc)) docs).
Proof.
  unfold rules_step.
  destruct use_rules; cbn [andb];
    [|split; [intros []|intros (E & _); discriminate E]].
  destruct (chroma_exists w);
    [|split; [intros []|intros (_ & E & _); discriminate E]].
  unfold retrieve_rules.
  destruct (similarity_search w _) as [[|d ds]|] eqn:Hs.
  - split; [intros []|]. intros (_ & _ & docs & E & Hin).
    injection E as <-. destruct Hin.
  - rewrite truthy_nonempty by (apply rules_text_nonempty; discriminate).
    cbn [snd]. split.
    + intros H. repeat split. eexists. split; [reflexivity|exact H].
    + intros (_ & _ & docs & E & Hin). injection E as <-. exact Hin.
  - split; [intros []|]. intros (_ & _ & docs & E & _). discriminate E.
Qed.

(** X15.  The sources the entry point returns with a summary have no
    repeats, and are exactly the sources of the passages found, which takes
    rules switched on, the index directory present and a search that
    succeeds. *)
Theorem pipeline_sources_without_repeats (np_sqrt : Q -> Q) (w : World)
    (query_text ticker : string) (preferences : gmap string string)
    (use_rules : bool) (response_text : string) (sources : list string)
    (stock_summary : Summary) :
  query_financial_dss np_sqrt w query_text ticker preferences use_rules
  = Ok (response_text, sources, Some stock_summary) ->
  List.NoDup sources
  /\ forall x : string,
      In x sources
      <-> use_rules = true /\ chroma_exists w = true
          /\ exists docs,
              similarity_search w
                (query_text +:+ " " +:+ ticker +:+ " investment rules constraints")
              = Some docs
              /\ In x (map (fun doc => default "Unknown" (doc_source doc)) docs).
Proof.
  unfold query_financial_dss.
  destruct (get_stock_summary np_sqrt w ticker "1y") as [s|]; [|discriminate].
  pose proof (rules_step_sources w query_text ticker use_rules) as Hstep.
  destruct (rules_step w query_text ticker use_rules) as [rules_context srcs].
  cbn [snd] in Hstep.
  destruct (get_prompt_guidance (make_pref_engine preferences)); [|discriminate].
  cbn [bind]. intros E. injection E as _ <- _. split.
  - apply NoDup_ListNoDup, NoDup_remove_dups.
  - intros x. rewrite <- Hstep, <- !list_elem_of_In. apply elem_of_remove_dups.
Qed.

Lemma pipeline_sources_without_repeats_witness :
  exists response_text sources stock_summary,
    query_financial_dss sqrt_milli rules_world "Is this stock too risky?" "AAPL" ∅ true
    = Ok (response_text, sources, Some stock_summary)
    /\ List.NoDup sources
    /\ In "policy.pdf" sources.
Proof.
  assert (E : exists response_text sources stock_summary,
             query_financial_dss sqrt_milli rules_world "Is this stock too risky?"
               "AAPL" ∅ true
             = Ok (response_text, sources, Some stock_summary)).
  { vm_compute. do 3 eexists. reflexivity. }
  destruct E as (response_text & sources & stock_summary & E).
  destruct (pipeline_sources_without_repeats sqrt_milli rules_world
              "Is this stock too risky?" "AAPL" ∅ true
              response_text sources stock_summary E) as [Hnd Hin].
  exists response_text, sources, stock_summary.
  split; [exact E|]. split; [exact Hnd|].
  apply Hin. repeat split. exists policy_passages.
  split; [reflexivity|]. simpl. auto.
Defined.

(** ** The assembled prompt *)

(** X16.  The prompt is the system instructions, then the preference
    guidance, the financial narrative, the rules block and the user's
    question, in this order, each between texts that do not depend on the
    inputs, and the closing instructions last; so each input is in the
    prompt as it was given. *)
Theorem prompt_keeps_inputs_in_order
    (query financial_context rules_context preference_guidance : string) :
  let prompt :=
    build_dss_prompt query financial_context rules_context preference_guidance in
  prompt
  = prompt_opening +:+ preference_guidance
    +:+ prompt_before_data +:+ financial_context
    +:+ prompt_before_rules +:+ rules_context
    +:+ prompt_before_question +:+ query
    +:+ prompt_closing
  /\ contains preference_guidance prompt = true
  /\ contains financial_context prompt = true
  /\ contains rules_context prompt = true
  /\ contains query prompt = true.
Proof.
  intros prompt.
  assert (E : prompt
              = prompt_opening +:+ preference_guidance
                +:+ prompt_before_data +:+ financial_context
                +:+ prompt_before_rules +:+ rules_context
                +:+ prompt_before_question +:+ query
                +:+ prompt_closing).
  { unfold prompt, build_dss_prompt, prompt_opening, prompt_before_data,
      prompt_before_rules, prompt_before_question, prompt_closing.
    cbn [join]. rewrite !append_assoc. reflexivity. }
  split; [exact E|]. rewrite E.
  repeat split.
  - apply contains_app_l, contains_app_r, contains_self.
  - do 3 apply contains_app_l. apply contains_app_r, contains_self.
  - do 5 apply contains_app_l. apply contains_app_r, contains_self.
  - do 7 apply contains_app_l. apply contains_app_r, contains_self.
Qed.

(** ** The tiers *)





(** X18.  When the service lists models, the first tier runs llama3.2 if a
    listed name contains llama3.2 and the first listed model otherwise.  Its
    stripped response is returned, whatever the second tier would give, when
    it is longer than 100 characters; at 100 characters or fewer the answer
    is left to the second tier and the fallback. *)
Theorem first_tier_wins_above_threshold (w : World) (prompt : string)
    (first : string) (models : list string) (response : string) :
  ollama_tags w = Some (first :: models) ->
  ollama_invoke w (chosen_model first models) prompt = Some response ->
  ((100 < py_len (strip response))%nat ->
   query_llm_with_dss_prompt w prompt = strip response)
  /\ ((py_len (strip response) <= 100)%nat ->
      query_llm_with_dss_prompt w prompt
      = match try_huggingface w prompt with
        | Some second => second
        | None => generate_structured_fallback prompt
        end).
Proof.
  intros Ht Hi. unfold query_llm_with_dss_prompt, try_ollama, check_ollama_running.
  rewrite Ht. replace (0 <? length (first :: models))%nat with true by reflexivity.
  cbv beta iota. fold (chosen_model first models). rewrite Hi.
  split; intros H.
  - rewrite (proj2 (Nat.ltb_lt _ _) H). reflexivity.
  - rewrite (proj2 (Nat.ltb_ge _ _) H). reflexivity.
Qed.

Lemma first_tier_wins_above_threshold_witness :
  query_llm_with_dss_prompt chatty_world volatility_line
  = "This stock shows moderate volatility, which suggests price swings that a conservative profile may find uncomfortable.".
Proof.
  destruct (first_tier_wins_above_threshold chatty_world volatility_line
              "mistral:7b" ["llama3.2:latest"] long_answer) as [H _].
  - reflexivity.
  - reflexivity.
  - rewrite H; [reflexivity|]. vm_compute. lia.
Defined.

(** ** The deterministic fallback *)

Lemma extract_iff (markers lines : list string) (x : string) :
  In x (extract markers lines)
  <-> exists line,
        In line lines
        /\ x = bullet +:+ " " +:+ strip line
        /\ forallb (fun m => contains m line) markers = true.
Proof.
  unfold extract. rewrite in_map_iff. split.
  - intros (line & <- & H). apply filter_In in H as [H1 H2]. eauto.
  - intros (line & H1 & -> & H2). exists line. split; [reflexivity|].
    apply filter_In. auto.
Qed.

(** X19.  The fallback lists a bullet exactly for the lines of the prompt
    that contain [Annualized Volatility:], or both [Return] and a percent
    sign, or [Sector:], each stripped; and its text opens with the heading
    of the analysis. *)
Theorem fallback_bullets_are_marked_lines (prompt x : string) :
  (In x (extracted_facts prompt)
   <-> exists line,
         In line (split_nl prompt)
         /\ x = bullet +:+ " " +:+ strip line
         /\ has_marker line)
  /\ String.prefix "DECISION SUPPORT ANALYSIS:" (generate_structured_fallback prompt)
     = true.
Proof.
  split.
  - unfold extracted_facts, has_marker. rewrite !in_app_iff, !extract_iff.
    cbn [forallb]. split.
    + intros [(l & H1 & H2 & H3)|[(l & H1 & H2 & H3)|(l & H1 & H2 & H3)]];
        exists l; (split; [exact H1|]); (split; [exact H2|]).
      * left. rewrite andb_true_r in H3. exact H3.
      * right; left. rewrite andb_true_r in H3.
        apply andb_true_iff in H3. exact H3.
      * right; right. rewrite andb_true_r in H3. exact H3.
    + intros (l & H1 & H2 & [H3|[[H3 H4]|H3]]).
      * left. exists l. rewrite H3. auto.
      * right; left. exists l. rewrite H3, H4. auto.
      * right; right. exists l. rewrite H3. auto.
  - unfold generate_structured_fallback, fallback_parts.
    cbn [app join].
    match goal with |- String.prefix ?h (?h +:+ ?t) = true => apply prefix_app end.
Qed.

(** ** The legacy document query *)



(** X20.  [query_rag] answers a missing index directory with a message and
    no source, without touching the index, and a search without passages
    with another message; but an error of the index itself escapes from it,
    where [retrieve_rules] turns the same error into empty rules. *)
Theorem query_rag_error_paths
    (qa_chain : string -> string -> option (string * list Doc))
    (w : World) (query_text ticker : string) :
  (chroma_exists w = false ->
   query_rag qa_chain w query_text
   = Some ("Database not found. Please run create_database.py first to create the vector database.", []))
  /\ (chroma_exists w = true -> similarity_search w query_text = Some [] ->
      query_rag qa_chain w query_text
      = Some ("No relevant documents found for your query.", []))
  /\ (chroma_exists w = true -> (forall q, similarity_search w q = None) ->
      query_rag qa_chain w query_text = None
      /\ retrieve_rules w query_text ticker = (EmptyString, [])).
Proof.
  unfold query_rag. repeat split.
  - intros ->. reflexivity.
  - intros -> ->. reflexivity.
  - rewrite H, H0. reflexivity.
  - unfold retrieve_rules. rewrite H0. reflexivity.
Qed.

Lemma query_rag_error_paths_witness :
  query_rag (fun _ _ => None) sample_world "What is the policy?"
  = Some ("Database not found. Please run create_database.py first to create the vector database.", []).
Proof.
  destruct (query_rag_error_paths (fun _ _ => None) sample_world
              "What is the policy?" "AAPL") as [H _].
  apply H. reflexivity.
Defined.



(** X22.  When passages are found and the chain of the model the service
    offers answers, [query_rag] returns that answer as it is, with no check
    of its length, and the sources of the chain without repeats. *)
Theorem query_rag_returns_model_answer
    (qa_chain : string -> string -> option (string * list Doc))
    (w : World) (query_text : string) (docs : list Doc)
    (first : string) (models : list string)
    (answer : string) (source_documents : list Doc) :
  chroma_exists w = true ->
  similarity_search w query_text = Some docs ->
  docs <> [] ->
  ollama_tags w = Some (first :: models) ->
  qa_chain (chosen_model first models) query_text = Some (answer, source_documents) ->
  exists sources : list string,
    query_rag qa_chain w query_text = Some (answer, sources)
    /\ List.NoDup sources
    /\ forall x, In x sources <-> In x (map source_of source_documents).
Proof.
  intros Hc Hs Hne Ht Hq. unfold query_rag, rag_ollama, check_ollama_running.
  rewrite Hc, Hs, Ht.
  destruct docs as [|d ds]; [contradiction|].
  replace (0 <? length (first :: models))%nat with true by reflexivity.
  cbv beta iota. fold (chosen_model first models). rewrite Hq.
  cbn [negb]. eexists. split; [reflexivity|]. split.
  - apply NoDup_ListNoDup, NoDup_remove_dups.
  - intros x. rewrite <- !list_elem_of_In. apply elem_of_remove_dups.
Qed.

Lemma query_rag_returns_model_answer_witness :
  exists sources : list string,
    query_rag (fun _ _ => Some (EmptyString, policy_passages)) chatty_world
      "What is the policy?"
    = Some (EmptyString, sources)
    /\ List.NoDup sources.
Proof.
  destruct (query_rag_returns_model_answer
              (fun _ _ => Some (EmptyString, policy_passages)) chatty_world
              "What is the policy?" policy_passages
              "mistral:7b" ["llama3.2:latest"] EmptyString policy_passages)
    as (sources & E & Hnd & _); try reflexivity; try discriminate.
  exists sources. split; [exact E|exact Hnd].
Defined.

(** ** More of the narrative *)

(** X23.  The benchmark line of the narrative says outperformed only for a
    difference above zero: a difference of exactly zero, like a negative one,
    reads underperformed; and the line gives the size of the difference
    without its sign. *)
Theorem benchmark_line_wording (perf : Performance) (v : Q) :
  vs_sp500_1y perf = Some (Fin v) ->
  ((0 < v)%Q ->
   In ("  vs. S&P 500: outperformed by " +:+ fmt_fixed 2 false (Fin (Qabs v)) +:+ "%")
      (performance_section perf))
  /\ ((v <= 0)%Q ->
      In ("  vs. S&P 500: underperformed by " +:+ fmt_fixed 2 false (Fin (Qabs v)) +:+ "%")
         (performance_section perf)).
Proof.
  intros Hv. unfold performance_section. rewrite Hv.
  unfold fgt, flt, fabs, fmap1. split; intros H.
  - rewrite (proj2 (Qlt_bool_iff 0 v) H).
    do 4 (apply in_or_app; right). apply in_or_app. left. left. reflexivity.
  - rewrite (proj2 (Qlt_bool_false_iff 0 v) H).
    do 4 (apply in_or_app; right). apply in_or_app. left. left. reflexivity.
Qed.

Lemma benchmark_line_wording_witness :
  In "  vs. S&P 500: underperformed by 0.00%"
     (performance_section (mkPerf None None None (Some (Fin 5)) (Some (Fin 0)))).
Proof.
  destruct (benchmark_line_wording
              (mkPerf None None None (Some (Fin 5)) (Some (Fin 0))) 0 eq_refl)
    as [_ H].
  apply H. discriminate.
Defined.

Lemma recovery_loop_never_opens (drawdown : list Q) (i : nat) (start : option nat) :
  Forall (fun d => (- (5 # 100) <= d)%Q) drawdown ->
  recovery_loop i false start [] drawdown = [].
Proof.
  intros H. revert i. induction H as [|d t Hd _ IH]; intros i; [reflexivity|].
  cbn [recovery_loop].
  rewrite (proj2 (Qlt_bool_false_iff d (- (5 # 100))) Hd).
  cbn [andb]. rewrite andb_false_r. apply IH.
Qed.

(** X24.  A history whose drawdown stays above -4.9%, clear of the -5% at
    which an episode opens, opens no episode, and its average recovery time
    is null. *)
Theorem no_deep_drawdown_no_recovery_time (np_sqrt : Q -> Q) (w : World)
    (hist : list Bar) :
  positive_closes hist ->
  Forall (fun d => (- (49 # 1000) <= d)%Q) (drawdown_of (pct_change (closes hist))) ->
  avg_recovery_days (_compute_risk_metrics np_sqrt w hist) = None.
Proof.
  intros _ H. cbn [avg_recovery_days _compute_risk_metrics].
  rewrite (recovery_loop_never_opens _ 0 None); [reflexivity|].
  eapply List.Forall_impl; [|exact H].
  intros d Hd. cbv beta in Hd |- *. lra.
Qed.

Lemma no_deep_drawdown_no_recovery_time_witness :
  avg_recovery_days (_compute_risk_metrics sqrt_milli sample_world market_week) = None.
Proof.
  apply no_deep_drawdown_no_recovery_time.
  - unfold positive_closes. vm_compute. repeat constructor.
  - vm_compute. repeat constructor; discriminate.
Defined.
